(** * Arithmetic service: operation layer and HTTP layer

    A shallow embedding of [backend/app/utils.py] (the operation functions)
    and [app/main.py] (the Flask handlers and the route table), with the
    properties the specification states about them.

    Layout:
    - [Py]     the fragment of Python the two files are written in: values,
               exceptions, [isinstance], arithmetic on the numeric tower
               (unbounded [int], binary64 [float]), [bin], [int(str)];
    - [Utils]  the functions of [utils.py], one definition per function;
    - [Flask]  requests, responses, JSON bodies, URL rules;
    - [Main]   the view functions and error handlers of [main.py];
    - the theorems. *)

From Stdlib Require Import ZArith List String Ascii Bool Lia DecimalString DecimalPos.
From Stdlib Require Import Sorting.Sorted Sorting.Permutation.
From Stdlib Require Import Floats.SpecFloat.
Import ListNotations.

Local Open Scope Z_scope.

(* ================================================================== *)
(** * The Python fragment *)
(* ================================================================== *)

Module Py.

(** Python's [float] is IEEE-754 binary64. *)
Definition prec : Z := 53.
Definition emax : Z := 1024.

(** Values that reach the operation layer. *)
Inductive value : Type :=
| VNone
| VBool (b : bool)
| VInt (z : Z)
| VFloat (f : spec_float)
| VStr (s : string).

(** The exception classes the two files raise, catch or let escape;
    [HTTPException] is the one the web framework aborts a request with. *)
Inductive exn : Type :=
| ValueError (msg : string)
| ZeroDivisionError (msg : string)
| OverflowError (msg : string)
| TypeError (msg : string)
| AttributeError (msg : string)
| HTTPException (code : Z).

(** A call either returns or raises. *)
Inductive outcome (A : Type) : Type :=
| Return (a : A)
| Raise (e : exn).
Arguments Return {A} a.
Arguments Raise {A} e.

Definition bind {A B} (m : outcome A) (k : A -> outcome B) : outcome B :=
  match m with
  | Return a => k a
  | Raise e => Raise e
  end.

Notation "x <- m ;; k" := (bind m (fun x => k))
  (at level 61, m at next level, right associativity).

(** ** Classes and [isinstance] *)

Inductive class : Type := NoneType | bool_ | int_ | float_ | str_.

Definition class_eqb (c d : class) : bool :=
  match c, d with
  | NoneType, NoneType | bool_, bool_ | int_, int_
  | float_, float_ | str_, str_ => true
  | _, _ => false
  end.

Definition type_of (v : value) : class :=
  match v with
  | VNone => NoneType
  | VBool _ => bool_
  | VInt _ => int_
  | VFloat _ => float_
  | VStr _ => str_
  end.

(** [bool] is a subclass of [int]; the other classes are unrelated. *)
Definition subclass (c d : class) : bool :=
  class_eqb c d || (class_eqb c bool_ && class_eqb d int_).

(** [isinstance(v, (c1, ..., cn))]. *)
Definition isinstance (v : value) (cs : list class) : bool :=
  existsb (subclass (type_of v)) cs.

(** ** Truth value, [not], [bool()] *)

Definition float_is_zero (f : spec_float) : bool :=
  match f with S754_zero _ => true | _ => false end.

Definition truth (v : value) : bool :=
  match v with
  | VNone => false
  | VBool b => b
  | VInt z => negb (z =? 0)
  | VFloat f => negb (float_is_zero f)
  | VStr s => negb (String.eqb s EmptyString)
  end.

Definition not_ (v : value) : value := VBool (negb (truth v)).
Definition bool_of (v : value) : value := VBool (truth v).

(** ** The numeric tower *)

Inductive number : Type :=
| NInt (z : Z)
| NFloat (f : spec_float).

(** [bool] takes part in arithmetic as the integers 0 and 1. *)
Definition as_number (v : value) : option number :=
  match v with
  | VBool b => Some (NInt (Z.b2z b))
  | VInt z => Some (NInt z)
  | VFloat f => Some (NFloat f)
  | VNone | VStr _ => None
  end.

(** [int] to [float]: round to nearest, ties to even; an integer whose
    rounding is not finite raises [OverflowError]. *)
Definition float_of_int (z : Z) : outcome spec_float :=
  match binary_normalize prec emax z 0 false with
  | S754_infinity _ => Raise (OverflowError "int too large to convert to float")
  | f => Return f
  end.

Definition to_float (n : number) : outcome spec_float :=
  match n with
  | NInt z => float_of_int z
  | NFloat f => Return f
  end.

(** An arithmetic operator on two numbers: exact on two [int]s, otherwise
    both operands are converted to [float] first. *)
Definition arith (iop : Z -> Z -> Z)
    (fop : spec_float -> spec_float -> spec_float)
    (x y : number) : outcome value :=
  match x, y with
  | NInt a, NInt b => Return (VInt (iop a b))
  | _, _ =>
      fx <- to_float x ;;
      fy <- to_float y ;;
      Return (VFloat (fop fx fy))
  end.

Definition unsupported (op : string) : exn :=
  TypeError ("unsupported operand type(s) for " ++ op).

(** [s * n] on a string. *)
Fixpoint repeat_string (s : string) (n : nat) : string :=
  match n with
  | O => EmptyString
  | S k => (s ++ repeat_string s k)%string
  end.

(** [a + b] *)
Definition add (a b : value) : outcome value :=
  match as_number a, as_number b with
  | Some x, Some y => arith Z.add (SFadd prec emax) x y
  | _, _ =>
      match a, b with
      | VStr s, VStr t => Return (VStr (s ++ t))
      | _, _ => Raise (unsupported "+")
      end
  end.

(** [a - b] *)
Definition sub (a b : value) : outcome value :=
  match as_number a, as_number b with
  | Some x, Some y => arith Z.sub (SFsub prec emax) x y
  | _, _ => Raise (unsupported "-")
  end.

(** [a * b] *)
Definition mul (a b : value) : outcome value :=
  match as_number a, as_number b with
  | Some x, Some y => arith Z.mul (SFmul prec emax) x y
  | _, _ =>
      match a, as_number b, as_number a, b with
      | VStr s, Some (NInt n), _, _ => Return (VStr (repeat_string s (Z.to_nat n)))
      | _, _, Some (NInt n), VStr s => Return (VStr (repeat_string s (Z.to_nat n)))
      | _, _, _, _ => Raise (unsupported "*")
      end
  end.

(** The integer [z] as the float operand of an exact quotient: the whole
    magnitude is the mantissa, so nothing is rounded before the division. *)
Definition exact_of_int (z : Z) : spec_float :=
  match z with
  | Z0 => S754_zero false
  | Zpos p => S754_finite false p 0
  | Zneg p => S754_finite true p 0
  end.

(** [a / b] on two [int]s: the quotient of the two integers, rounded once. *)
Definition int_true_divide (a b : Z) : outcome value :=
  if b =? 0 then Raise (ZeroDivisionError "division by zero")
  else
    match SFdiv prec emax (exact_of_int a) (exact_of_int b) with
    | S754_infinity _ =>
        Raise (OverflowError "integer division result too large for a float")
    | q => Return (VFloat q)
    end.

Definition float_div (x y : spec_float) : outcome value :=
  if float_is_zero y then Raise (ZeroDivisionError "float division by zero")
  else Return (VFloat (SFdiv prec emax x y)).

(** [a / b] *)
Definition truediv (a b : value) : outcome value :=
  match as_number a, as_number b with
  | Some (NInt x), Some (NInt y) => int_true_divide x y
  | Some x, Some y =>
      fx <- to_float x ;;
      fy <- to_float y ;;
      float_div fx fy
  | _, _ => Raise (unsupported "/")
  end.

(** [-a] *)
Definition neg (a : value) : outcome value :=
  match as_number a with
  | Some (NInt z) => Return (VInt (- z))
  | Some (NFloat f) => Return (VFloat (SFopp f))
  | None => Raise (TypeError "bad operand type for unary -")
  end.

(** [abs(a)] *)
Definition abs (a : value) : outcome value :=
  match as_number a with
  | Some (NInt z) => Return (VInt (Z.abs z))
  | Some (NFloat f) => Return (VFloat (SFabs f))
  | None => Raise (TypeError "bad operand type for abs()")
  end.

(** [a & b]: on two [bool]s the result is a [bool], on [int]s the bitwise
    and of the two's-complement expansions. *)
Definition and_ (a b : value) : outcome value :=
  match a, b with
  | VBool x, VBool y => Return (VBool (x && y))
  | _, _ =>
      match as_number a, as_number b with
      | Some (NInt x), Some (NInt y) => Return (VInt (Z.land x y))
      | _, _ => Raise (unsupported "&")
      end
  end.

(** ** Comparison of numbers

    A float and an integer are compared by value, without converting the
    integer. A comparison with NaN has no order. *)

Definition float_compare_int (f : spec_float) (k : Z) : option comparison :=
  match f with
  | S754_nan => None
  | S754_infinity s => Some (if s then Lt else Gt)
  | S754_zero _ => Some (0 ?= k)
  | S754_finite s m e =>
      let sm := cond_Zopp s (Zpos m) in
      Some (if 0 <=? e then sm * 2 ^ e ?= k else sm ?= k * 2 ^ (- e))
  end.

Definition compare_number (x y : number) : option comparison :=
  match x, y with
  | NInt a, NInt b => Some (a ?= b)
  | NFloat f, NFloat g => SFcompare f g
  | NFloat f, NInt k => float_compare_int f k
  | NInt k, NFloat f => option_map CompOpp (float_compare_int f k)
  end.

(** [a == b]; objects of unrelated classes are never equal. *)
Definition eq (a b : value) : bool :=
  match as_number a, as_number b with
  | Some x, Some y =>
      match compare_number x y with Some Eq => true | _ => false end
  | _, _ =>
      match a, b with
      | VNone, VNone => true
      | VStr s, VStr t => String.eqb s t
      | _, _ => false
      end
  end.

(** [a >= b] on numbers. *)
Definition ge (a b : value) : outcome bool :=
  match as_number a, as_number b with
  | Some x, Some y =>
      Return match compare_number x y with
             | Some (Gt | Eq) => true
             | _ => false
             end
  | _, _ => Raise (TypeError "'>=' not supported between these instances")
  end.

(** ** Strings: slices, iteration, [bin], [int(str)]

    A string is a sequence of ASCII characters. *)

(** [s[n:]] *)
Fixpoint slice_from (n : nat) (s : string) : string :=
  match n, s with
  | O, _ => s
  | S k, EmptyString => EmptyString
  | S k, String _ r => slice_from k r
  end.

(** The binary digits of [p], most significant first, in front of [acc]. *)
Fixpoint pos_bits (p : positive) (acc : string) : string :=
  match p with
  | xH => String "1" acc
  | xO q => pos_bits q (String "0" acc)
  | xI q => pos_bits q (String "1" acc)
  end.

(** [bin(z)] on an integer: the sign, the prefix [0b], then the digits of
    the magnitude without leading zeros. *)
Definition bin_int (z : Z) : string :=
  match z with
  | Z0 => "0b0"
  | Zpos p => ("0b" ++ pos_bits p "")%string
  | Zneg p => ("-0b" ++ pos_bits p "")%string
  end.

(** [bin(v)] *)
Definition bin (v : value) : outcome string :=
  match v with
  | VInt z => Return (bin_int z)
  | VBool b => Return (bin_int (Z.b2z b))
  | _ => Raise (TypeError "object cannot be interpreted as an integer")
  end.

(** Characters [str.isspace] accepts. *)
Definition is_space (c : ascii) : bool :=
  let n := nat_of_ascii c in
  ((9 <=? n) && (n <=? 13) || (28 <=? n) && (n <=? 32))%nat.

Definition digit_of (c : ascii) : option Z :=
  let n := Z.of_nat (nat_of_ascii c) in
  if (48 <=? n) && (n <=? 57) then Some (n - 48) else None.

Definition is_digit (c : ascii) : bool :=
  match digit_of c with Some _ => true | None => false end.

Fixpoint lstrip (s : string) : string :=
  match s with
  | EmptyString => EmptyString
  | String c r => if is_space c then lstrip r else s
  end.

Definition string_rev (s : string) : string :=
  string_of_list_ascii (rev (list_ascii_of_string s)).

Definition strip (s : string) : string :=
  string_rev (lstrip (string_rev (lstrip s))).

(** Decimal digits, where one underscore may separate two digits.
    [after_digit] tells whether the previous character was a digit. *)
Fixpoint decimal (s : string) (acc : Z) (after_digit : bool) : option Z :=
  match s with
  | EmptyString => if after_digit then Some acc else None
  | String c r =>
      if Ascii.eqb c "_" then
        if after_digit then decimal r acc false else None
      else
        match digit_of c with
        | Some d => decimal r (10 * acc + d) true
        | None => None
        end
  end.

(** [int(s)] on a string, base 10: surrounding whitespace is dropped, one
    sign is allowed. The quoting of [s] inside the message and the
    interpreter's configurable limit on the number of digits are left out;
    no handler looks at either. *)
Definition int_of_str (s : string) : outcome Z :=
  let bad := Raise (ValueError ("invalid literal for int() with base 10: " ++ s)) in
  match strip s with
  | String "-" r =>
      match decimal r 0 false with Some z => Return (- z) | None => bad end
  | String "+" r =>
      match decimal r 0 false with Some z => Return z | None => bad end
  | r =>
      match decimal r 0 false with Some z => Return z | None => bad end
  end.

(** ** Characters and string methods

    A character is a code point below 256; [isalnum] and [lower] are the
    methods of the one-character strings of that range. *)

Definition between (lo hi n : nat) : bool := ((lo <=? n) && (n <=? hi))%nat.

(** [c.isalnum()] *)
Definition isalnum (c : ascii) : bool :=
  let n := nat_of_ascii c in
  between 48 57 n || between 65 90 n || between 97 122 n
  || (n =? 170)%nat || between 178 179 n || (n =? 181)%nat
  || between 185 186 n || between 188 190 n
  || between 192 214 n || between 216 246 n || between 248 255 n.

(** [c.lower()] *)
Definition lower (c : ascii) : ascii :=
  let n := nat_of_ascii c in
  if between 65 90 n || between 192 214 n || between 216 222 n
  then ascii_of_nat (n + 32)
  else c.

(** ** Lists and sorting

    An argument that may be a list: a list of values, or a value that is
    not a list. *)
Inductive object : Type :=
| Scalar (v : value)
| List (items : list value).

(** [a < b] on numbers. *)
Definition lt (a b : value) : outcome bool :=
  match as_number a, as_number b with
  | Some x, Some y =>
      Return match compare_number x y with
             | Some Lt => true
             | _ => false
             end
  | _, _ => Raise (TypeError "'<' not supported between these instances")
  end.

(** [x] goes in front of the first element it is less than, so behind
    every element it is equal to. *)
Fixpoint insert (x : value) (sorted : list value) : outcome (list value) :=
  match sorted with
  | [] => Return [x]
  | y :: rest =>
      less <- lt x y ;;
      if less then Return (x :: y :: rest)
      else (rest' <- insert x rest ;; Return (y :: rest'))
  end.

(** The stable sort by [<]: elements that are equal keep their order. It is
    what the interpreter's sort returns when [<] orders the elements
    totally. *)
Definition stable_sort (items : list value) : outcome (list value) :=
  fold_left (fun acc x => sorted <- acc ;; insert x sorted) items (Return []).

(** [sorted(items, reverse=reverse)]: a reverse sort is the stable sort of
    the reversed list, reversed. *)
Definition sorted (items : list value) (reverse : bool) : outcome (list value) :=
  if reverse then (r <- stable_sort (rev items) ;; Return (rev r))
  else stable_sort items.

End Py.

(* ================================================================== *)
(** * The operation layer: [backend/app/utils.py] *)
(* ================================================================== *)

Module Utils.
Import Py.
Local Open Scope string_scope.

(** [get_current_time()] reads the clock; the model takes the reading. *)
Definition get_current_time (clock : string) : string := clock.

Definition add_numbers (a b : value) : outcome value :=
  if negb (isinstance a [int_; float_]) || negb (isinstance b [int_; float_]) then
    Raise (ValueError "Both inputs must be integers or floats")
  else if isinstance a [bool_] || isinstance b [bool_] then
    Raise (ValueError "Boolean values are not allowed")
  else add a b.

Definition subtract_numbers (a b : value) : outcome value :=
  if negb (isinstance a [int_; float_]) || negb (isinstance b [int_; float_]) then
    Raise (ValueError "Both inputs must be integers or floats")
  else if isinstance a [bool_] || isinstance b [bool_] then
    Raise (ValueError "Boolean values are not allowed")
  else sub a b.

Definition multiply_numbers (a b : value) : outcome value :=
  if negb (isinstance a [int_; float_]) || negb (isinstance b [int_; float_]) then
    Raise (ValueError "Both inputs must be integers or floats")
  else if isinstance a [bool_] || isinstance b [bool_] then
    Raise (ValueError "Boolean values are not allowed")
  else mul a b.

Definition divide_numbers (a b : value) : outcome value :=
  if negb (isinstance a [int_; float_]) || negb (isinstance b [int_; float_]) then
    Raise (ValueError "Both inputs must be integers or floats")
  else if isinstance a [bool_] || isinstance b [bool_] then
    Raise (ValueError "Boolean values are not allowed")
  else if eq b (VInt 0) then
    Raise (ZeroDivisionError "Cannot divide by zero")
  else truediv a b.

(** One turn of the loop of [even_parity]:
    [if bit == "1": count += 1]. *)
Definition count_bit (count : Z) (bit : ascii) : Z :=
  if Ascii.eqb bit "1" then count + 1 else count.

Definition even_parity (n : value) : outcome value :=
  if negb (isinstance n [int_]) || isinstance n [bool_] then
    Raise (ValueError "Input must be an integer")
  else
    digits <- bin n ;;
    let count :=
      fold_left count_bit (list_ascii_of_string (slice_from 2 digits)) 0 in
    low <- and_ (VInt count) (VInt 1) ;;
    Return (not_ low).

Definition is_even (n : value) : outcome value :=
  if negb (isinstance n [int_]) || isinstance n [bool_] then
    Raise (ValueError "Input must be an integer")
  else
    low <- and_ n (VInt 1) ;;
    Return (not_ low).

Definition is_odd (n : value) : outcome value :=
  if negb (isinstance n [int_]) || isinstance n [bool_] then
    Raise (ValueError "Input must be an integer")
  else
    low <- and_ n (VInt 1) ;;
    Return (bool_of low).

Definition square (n : value) : outcome value :=
  if negb (isinstance n [int_; float_]) || isinstance n [bool_] then
    Raise (ValueError "Input must be a number (int or float)")
  else mul n n.

Definition absolute_value (n : value) : outcome value :=
  if negb (isinstance n [int_; float_]) || isinstance n [bool_] then
    Raise (ValueError "Input must be a number (int or float)")
  else abs n.

(** *** String operations *)

(** [''.join(c.lower() for c in text if c.isalnum())] *)
Fixpoint join_lower_alnum (text : string) : string :=
  match text with
  | EmptyString => EmptyString
  | String c rest =>
      if isalnum c then String (lower c) (join_lower_alnum rest)
      else join_lower_alnum rest
  end.

Definition is_palindrome (text : value) : outcome value :=
  match text with
  | VStr s =>
      let clean_text := join_lower_alnum s in
      Return (VBool (eq (VStr clean_text) (VStr (string_rev clean_text))))
  | _ => Raise (ValueError "Input must be a string")
  end.

Definition reverse_string (text : value) : outcome value :=
  match text with
  | VStr s => Return (VStr (string_rev s))
  | _ => Raise (ValueError "Input must be a string")
  end.

(** *** List operations *)

Definition sort_list (numbers : object) (reverse : bool) : outcome object :=
  match numbers with
  | Scalar _ => Raise (ValueError "Input must be a list")
  | List items =>
      if negb (forallb (fun x => isinstance x [int_; float_]) items) then
        Raise (ValueError "List must contain only numbers")
      else
        result <- sorted items reverse ;;
        Return (List result)
  end.

End Utils.

(* ================================================================== *)
(** * The web framework as [main.py] uses it *)
(* ================================================================== *)

Module Flask.
Import Py.
Local Open Scope string_scope.

#[warnings="-register-all"]
Inductive json : Type :=
| JNull
| JBool (b : bool)
| JInt (z : Z)
| JFloat (f : spec_float)
| JStr (s : string)
| JList (items : list json)
| JObj (fields : list (string * json)).

Definition json_of_value (v : value) : json :=
  match v with
  | VNone => JNull
  | VBool b => JBool b
  | VInt z => JInt z
  | VFloat f => JFloat f
  | VStr s => JStr s
  end.

(** The truth value of a decoded JSON document. *)
Definition json_truth (j : json) : bool :=
  match j with
  | JNull => false
  | JBool b => b
  | JInt z => negb (z =? 0)%Z
  | JFloat f => negb (float_is_zero f)
  | JStr s => negb (String.eqb s "")
  | JList items => match items with [] => false | _ => true end
  | JObj fields => match fields with [] => false | _ => true end
  end.

Inductive method : Type := GET | HEAD | POST | PUT | PATCH | DELETE | OPTIONS.

Definition method_eqb (m n : method) : bool :=
  match m, n with
  | GET, GET | HEAD, HEAD | POST, POST | PUT, PUT
  | PATCH, PATCH | DELETE, DELETE | OPTIONS, OPTIONS => true
  | _, _ => false
  end.

(** What [request.get_json()] finds: a decoded document, or a body that
    makes the framework abort the request with the given status. *)
Inductive payload : Type :=
| Decoded (j : json)
| Rejected (code : Z).

(** A request: the query string is kept as the list of its pairs, in the
    order they were sent (a key may occur more than once). *)
Record request : Type := {
  req_method : method;
  req_path : string;
  req_args : list (string * string);
  req_payload : payload
}.

(** [d.get(key)] on the multi-dictionary of the query string: the first
    value sent for [key], or [None]. *)
Fixpoint args_get (args : list (string * string)) (key : string) : option string :=
  match args with
  | [] => None
  | (k, v) :: rest => if String.eqb k key then Some v else args_get rest key
  end.

(** [d.get(key, default)] on a decoded JSON object. *)
Fixpoint fields_get (fields : list (string * json)) (key : string) (default : json) : json :=
  match fields with
  | [] => default
  | (k, v) :: rest => if String.eqb k key then v else fields_get rest key default
  end.

Definition get_json (r : request) : outcome json :=
  match req_payload r with
  | Decoded j => Return j
  | Rejected code => Raise (HTTPException code)
  end.

(** A response: [jsonify(body), status], or the page the framework writes
    itself for a status no handler of the application is registered for,
    or its own answer to an [OPTIONS] request. *)
Inductive response : Type :=
| Json (body : json) (status : Z)
| DefaultPage (status : Z)
| Allow (methods : list method).

Definition status_of (r : response) : Z :=
  match r with
  | Json _ status => status
  | DefaultPage status => status
  | Allow _ => 200
  end.

(** ** Views

    A view runs in the error monad and leaves a log of the calls it made
    to the operation layer, oldest first. *)

Record call : Type := { callee : string; operands : list value }.

Definition view (A : Type) : Type := (list call * outcome A)%type.

Definition ret {A} (a : A) : view A := ([], Return a).

Definition vbind {A B} (m : view A) (k : A -> view B) : view B :=
  match m with
  | (log, Return a) => let (log', r) := k a in ((log ++ log')%list, r)
  | (log, Raise e) => (log, Raise e)
  end.

Notation "x <~ m ;; k" := (vbind m (fun x => k))
  (at level 61, m at next level, right associativity).

(** A computation of the language itself, which calls nothing. *)
Definition lift {A} (m : outcome A) : view A := ([], m).

(** A call of a function of the operation layer. *)
Definition invoke (name : string) (operands : list value)
    (result : outcome value) : view value :=
  ([{| callee := name; operands := operands |}], result).

(** [try: body / except ...: handler]: [handler e] is [None] when no
    [except] clause matches [e]. *)
Definition try_except {A} (body : view A) (handler : exn -> option (view A)) : view A :=
  match body with
  | (log, Return a) => (log, Return a)
  | (log, Raise e) =>
      match handler e with
      | Some h => let (log', r) := h in ((log ++ log')%list, r)
      | None => (log, Raise e)
      end
  end.

(** ** URL rules *)

Inductive part : Type :=
| Static (text : string)
| IntConverter (name : string).

(** [s.split(sep)] for a one-character separator. *)
Fixpoint split (sep : ascii) (s : string) : list string :=
  match s with
  | EmptyString => [EmptyString]
  | String c r =>
      if Ascii.eqb c sep then EmptyString :: split sep r
      else
        match split sep r with
        | [] => [String c EmptyString]
        | first :: others => String c first :: others
        end
  end.

(** A part [<int:name>] of a rule is a converter, any other part is text. *)
Definition parse_part (p : string) : part :=
  if String.prefix "<int:" p
     && String.eqb (substring (String.length p - 1)%nat 1 p) ">"
  then IntConverter (substring 5 (String.length p - 6)%nat p)
  else Static p.

Definition parse_rule (rule : string) : list part :=
  map parse_part (split "/" rule).

Fixpoint all_digits (s : string) : bool :=
  match s with
  | EmptyString => true
  | String c r => is_digit c && all_digits r
  end.

(** The [int] converter accepts one or more digits and nothing else (no
    sign); the view receives their value. *)
Definition int_converter (segment : string) : option value :=
  if negb (String.eqb segment "") && all_digits segment then
    match int_of_str segment with
    | Return z => Some (VInt z)
    | Raise _ => None
    end
  else None.

(** Matching the segments of a path against the parts of a rule gives the
    keyword arguments of the view. *)
Fixpoint match_parts (parts : list part) (segments : list string)
    : option (list (string * value)) :=
  match parts, segments with
  | [], [] => Some []
  | Static text :: parts', segment :: segments' =>
      if String.eqb text segment then match_parts parts' segments' else None
  | IntConverter name :: parts', segment :: segments' =>
      match int_converter segment, match_parts parts' segments' with
      | Some v, Some kwargs => Some ((name, v) :: kwargs)
      | _, _ => None
      end
  | _, _ => None
  end.

Definition match_rule (rule path : string) : option (list (string * value)) :=
  match_parts (parse_rule rule) (split "/" path).

End Flask.

(* ================================================================== *)
(** * The HTTP layer: [app/main.py] *)
(* ================================================================== *)

Module Main.
Import Py Flask.
Local Open Scope string_scope.

Section Views.

(** The reading of the clock while the request is served. *)
Variable clock : string.

Definition timestamp : string * json :=
  ("timestamp", JStr (Utils.get_current_time clock)).

(** *** Health check endpoints *)

Definition health_check (_ : request) : view response :=
  ret (Json (JObj [
    ("status", JStr "healthy");
    ("message", JStr "Python CI/CD App is running!");
    timestamp ]) 200).

Definition detailed_health_check (_ : request) : view response :=
  ret (Json (JObj [
    ("status", JStr "healthy");
    ("service", JStr "python-cicd-app");
    ("version", JStr "1.0.0");
    ("message", JStr "Application is operational");
    timestamp;
    ("environment", JStr "development") ]) 200).

Definition catalog_entry (path : string) (methods : json) (description : string) : json :=
  JObj [("path", JStr path); ("method", methods); ("description", JStr description)].

Definition app_info (_ : request) : view response :=
  ret (Json (JObj [
    ("app_name", JStr "Python CI/CD Learning Project");
    ("version", JStr "1.0.0");
    ("description", JStr "Educational CI/CD pipeline demonstration");
    ("endpoints", JList [
       catalog_entry "/" (JStr "GET") "Health check";
       catalog_entry "/api/health" (JStr "GET") "Detailed health";
       catalog_entry "/api/info" (JStr "GET") "App info";
       catalog_entry "/api/add?a=<num>&b=<num>" (JStr "GET") "Add numbers";
       catalog_entry "/api/subtract?a=<num>&b=<num>" (JStr "GET") "Subtract numbers";
       catalog_entry "/api/multiply?a=<num>&b=<num>" (JStr "GET") "Multiply numbers";
       catalog_entry "/api/divide?a=<num>&b=<num>" (JStr "GET") "Divide numbers";
       catalog_entry "/api/square?n=<num>" (JStr "GET") "Square number";
       catalog_entry "/api/abs?n=<num>" (JStr "GET") "Absolute value";
       catalog_entry "/api/parity/<n>" (JStr "GET") "Check even/odd";
       catalog_entry "/api/echo" (JList [JStr "GET"; JStr "POST"]) "Echo data" ]);
    timestamp ]) 200).

(** *** Mathematical endpoints *)

Definition error_body (message : string) : json := JObj [("error", JStr message)].

(** The [except ValueError] clause the arithmetic views share. *)
Definition except_ValueError (message : string) (e : exn) : option (view response) :=
  match e with
  | ValueError _ => Some (ret (Json (error_body message) 400))
  | _ => None
  end.

Definition add (request : request) : view response :=
  try_except
    (match args_get (req_args request) "a", args_get (req_args request) "b" with
     | Some a, Some b =>
         a <~ lift (int_of_str a) ;;
         b <~ lift (int_of_str b) ;;
         result <~ invoke "add_numbers" [VInt a; VInt b]
                     (Utils.add_numbers (VInt a) (VInt b)) ;;
         ret (Json (JObj [
           ("operation", JStr "add");
           ("a", JInt a);
           ("b", JInt b);
           ("result", json_of_value result);
           timestamp ]) 200)
     | _, _ => ret (Json (error_body "Parameters 'a' and 'b' are required") 400)
     end)
    (except_ValueError "Parameters must be valid integers").

Definition subtract (request : request) : view response :=
  try_except
    (match args_get (req_args request) "a", args_get (req_args request) "b" with
     | Some a, Some b =>
         a <~ lift (int_of_str a) ;;
         b <~ lift (int_of_str b) ;;
         result <~ invoke "subtract_numbers" [VInt a; VInt b]
                     (Utils.subtract_numbers (VInt a) (VInt b)) ;;
         ret (Json (JObj [
           ("operation", JStr "subtract");
           ("a", JInt a);
           ("b", JInt b);
           ("result", json_of_value result);
           timestamp ]) 200)
     | _, _ => ret (Json (error_body "Parameters 'a' and 'b' are required") 400)
     end)
    (except_ValueError "Parameters must be valid integers").

Definition multiply (request : request) : view response :=
  try_except
    (match args_get (req_args request) "a", args_get (req_args request) "b" with
     | Some a, Some b =>
         a <~ lift (int_of_str a) ;;
         b <~ lift (int_of_str b) ;;
         result <~ invoke "multiply_numbers" [VInt a; VInt b]
                     (Utils.multiply_numbers (VInt a) (VInt b)) ;;
         ret (Json (JObj [
           ("operation", JStr "multiply");
           ("a", JInt a);
           ("b", JInt b);
           ("result", json_of_value result);
           timestamp ]) 200)
     | _, _ => ret (Json (error_body "Parameters 'a' and 'b' are required") 400)
     end)
    (except_ValueError "Parameters must be valid integers").

Definition divide (request : request) : view response :=
  try_except
    (match args_get (req_args request) "a", args_get (req_args request) "b" with
     | Some a, Some b =>
         a <~ lift (int_of_str a) ;;
         b <~ lift (int_of_str b) ;;
         result <~ invoke "divide_numbers" [VInt a; VInt b]
                     (Utils.divide_numbers (VInt a) (VInt b)) ;;
         ret (Json (JObj [
           ("operation", JStr "divide");
           ("a", JInt a);
           ("b", JInt b);
           ("result", json_of_value result);
           timestamp ]) 200)
     | _, _ => ret (Json (error_body "Parameters 'a' and 'b' are required") 400)
     end)
    (fun e =>
       match e with
       | ValueError _ => Some (ret (Json (error_body "Parameters must be valid integers") 400))
       | ZeroDivisionError _ => Some (ret (Json (error_body "Division by zero is not allowed") 400))
       | _ => None
       end).

(** *** Utility endpoints *)

Definition square_endpoint (request : request) : view response :=
  try_except
    (match args_get (req_args request) "n" with
     | Some n =>
         n <~ lift (int_of_str n) ;;
         result <~ invoke "square" [VInt n] (Utils.square (VInt n)) ;;
         ret (Json (JObj [
           ("operation", JStr "square");
           ("input", JInt n);
           ("result", json_of_value result);
           timestamp ]) 200)
     | None => ret (Json (error_body "Parameter 'n' is required") 400)
     end)
    (except_ValueError "Parameter must be a valid integer").

Definition absolute_endpoint (request : request) : view response :=
  try_except
    (match args_get (req_args request) "n" with
     | Some n =>
         n <~ lift (int_of_str n) ;;
         result <~ invoke "absolute_value" [VInt n] (Utils.absolute_value (VInt n)) ;;
         ret (Json (JObj [
           ("operation", JStr "absolute_value");
           ("input", JInt n);
           ("result", json_of_value result);
           timestamp ]) 200)
     | None => ret (Json (error_body "Parameter 'n' is required") 400)
     end)
    (except_ValueError "Parameter must be a valid integer").

(** [except ValueError as e: return jsonify({"error": str(e)}), 400] *)
Definition except_ValueError_as_e (e : exn) : option (view response) :=
  match e with
  | ValueError msg => Some (ret (Json (error_body msg) 400))
  | _ => None
  end.

Definition parity_endpoint (n : value) : view response :=
  try_except
    (even <~ invoke "is_even" [n] (Utils.is_even n) ;;
     odd <~ invoke "is_odd" [n] (Utils.is_odd n) ;;
     ret (Json (JObj [
       ("operation", JStr "parity");
       ("input", json_of_value n);
       ("is_even", json_of_value even);
       ("is_odd", json_of_value odd);
       ("parity", JStr (if truth even then "even" else "odd"));
       timestamp ]) 200))
    except_ValueError_as_e.

Definition odd_even_endpoint (n : value) : view response :=
  try_except
    (even <~ invoke "is_even" [n] (Utils.is_even n) ;;
     odd <~ invoke "is_odd" [n] (Utils.is_odd n) ;;
     let status := if truth even then "even" else "odd" in
     ret (Json (JObj [
       ("operation", JStr "Odd/Even Check");
       ("input", json_of_value n);
       ("is_even", json_of_value even);
       ("is_odd", json_of_value odd);
       ("status", JStr status);
       timestamp ]) 200))
    except_ValueError_as_e.

Definition echo (request : request) : view response :=
  message <~
    (if method_eqb (req_method request) POST then
       data <~ lift (get_json request) ;;
       if json_truth data then
         match data with
         | JObj fields => ret (fields_get fields "message" (JStr ""))
         | _ => lift (Raise (AttributeError "object has no attribute 'get'"))
         end
       else ret (JStr "")
     else
       ret (match args_get (req_args request) "message" with
            | Some m => JStr m
            | None => JStr ""
            end)) ;;
  ret (Json (JObj [("operation", JStr "echo"); ("message", message); timestamp ]) 200).

(** *** Error handlers *)

Definition not_found : response :=
  Json (JObj [
    ("error", JStr "Endpoint not found");
    ("status", JInt 404);
    ("message", JStr "The requested endpoint does not exist");
    timestamp ]) 404.

Definition method_not_allowed : response :=
  Json (JObj [
    ("error", JStr "Method not allowed");
    ("status", JInt 405);
    ("message", JStr "The HTTP method is not allowed for this endpoint");
    timestamp ]) 405.

Definition internal_server_error : response :=
  Json (JObj [
    ("error", JStr "Internal server error");
    ("status", JInt 500);
    ("message", JStr "An unexpected error occurred");
    timestamp ]) 500.

(** *** The route table

    One entry per [@app.route]: the rule, its methods, and the view with
    the keyword arguments the rule extracts from the path. *)

Record route : Type := {
  rule : string;
  methods : list method;
  endpoint : request -> list (string * value) -> view response
}.

(** The keyword argument a view is called with under [name]. *)
Fixpoint kwarg (kwargs : list (string * value)) (name : string) : value :=
  match kwargs with
  | [] => VNone
  | (k, v) :: rest => if String.eqb k name then v else kwarg rest name
  end.

Definition url_map : list route := [
  {| rule := "/"; methods := [GET]; endpoint := fun r _ => health_check r |};
  {| rule := "/api/health"; methods := [GET]; endpoint := fun r _ => detailed_health_check r |};
  {| rule := "/api/info"; methods := [GET]; endpoint := fun r _ => app_info r |};
  {| rule := "/api/add"; methods := [GET]; endpoint := fun r _ => add r |};
  {| rule := "/api/subtract"; methods := [GET]; endpoint := fun r _ => subtract r |};
  {| rule := "/api/multiply"; methods := [GET]; endpoint := fun r _ => multiply r |};
  {| rule := "/api/divide"; methods := [GET]; endpoint := fun r _ => divide r |};
  {| rule := "/api/square"; methods := [GET]; endpoint := fun r _ => square_endpoint r |};
  {| rule := "/api/abs"; methods := [GET]; endpoint := fun r _ => absolute_endpoint r |};
  {| rule := "/api/parity/<int:n>"; methods := [GET];
     endpoint := fun _ kwargs => parity_endpoint (kwarg kwargs "n") |};
  {| rule := "/api/odd_even/<int:n>"; methods := [GET];
     endpoint := fun _ kwargs => odd_even_endpoint (kwarg kwargs "n") |};
  {| rule := "/api/echo"; methods := [GET; POST]; endpoint := fun r _ => echo r |} ].

(** The methods a route answers: those it names, [HEAD] when it names
    [GET], and [OPTIONS]. *)
Definition allowed (r : route) : list method :=
  (methods r
   ++ (if existsb (method_eqb GET) (methods r) then [HEAD] else [])
   ++ [OPTIONS])%list.

(** The routes whose rule matches the path, each with its arguments. *)
Fixpoint matching (routes : list route) (path : string)
    : list (route * list (string * value)) :=
  match routes with
  | [] => []
  | r :: rest =>
      match match_rule (rule r) path with
      | Some kwargs => (r, kwargs) :: matching rest path
      | None => matching rest path
      end
  end.

(** An exception that leaves a view: the handler registered for its
    status, the framework's own page for another status, and the handler
    for 500 for anything that is not an HTTP error. *)
Definition handle_exception (e : exn) : response :=
  match e with
  | HTTPException 404 => not_found
  | HTTPException 405 => method_not_allowed
  | HTTPException 500 => internal_server_error
  | HTTPException code => DefaultPage code
  | _ => internal_server_error
  end.

(** Serving one request: the calls made to the operation layer and the
    response. A path no rule matches is a 404; a path some rule matches,
    but none with the method of the request, is a 405. Redirections for
    paths with doubled slashes are outside the model, such a path counts
    as unmatched. *)
Definition dispatch_request (request : request) : list call * response :=
  let candidates := matching url_map (req_path request) in
  match
    find (fun c => existsb (method_eqb (req_method request)) (allowed (fst c))) candidates
  with
  | Some (r, kwargs) =>
      if method_eqb (req_method request) OPTIONS
           && negb (existsb (method_eqb OPTIONS) (methods r))
      then ([], Allow (allowed r))
      else
        match endpoint r request kwargs with
        | (log, Return resp) => (log, resp)
        | (log, Raise e) => (log, handle_exception e)
        end
  | None =>
      match candidates with
      | [] => ([], handle_exception (HTTPException 404))
      | _ :: _ => ([], handle_exception (HTTPException 405))
      end
  end.

End Views.

End Main.

(* ================================================================== *)
(** * Vocabulary of the specification *)
(* ================================================================== *)

Module Spec.
Import Py.

(** A non-boolean numeric operand: an [int] or a [float], not a [bool]. *)
Definition numeric (v : value) : bool :=
  isinstance v [int_; float_] && negb (isinstance v [bool_]).

Definition boolean_typed (v : value) : Prop := type_of v = bool_.

(** InvalidInput is [ValueError], DivisionByZero is [ZeroDivisionError]. *)
Definition InvalidInput {A} (o : outcome A) : Prop :=
  exists msg, o = Raise (ValueError msg).

Definition DivisionByZero {A} (o : outcome A) : Prop :=
  exists msg, o = Raise (ZeroDivisionError msg).

Definition Overflow {A} (o : outcome A) : Prop :=
  exists msg, o = Raise (OverflowError msg).

Definition returns_float (o : outcome value) : Prop :=
  exists f, o = Return (VFloat f).

Definition is_nan (v : value) : bool :=
  match v with VFloat S754_nan => true | _ => false end.

(** The minimal unsigned binary representation of the absolute value of
    [n], most significant digit first: the digits at the positions
    [log2 |n|] down to [0] (the single digit 0 for [n = 0]). *)
Definition binary_magnitude (n : Z) : list bool :=
  map (fun i => Z.testbit (Z.abs n) (Z.of_nat i))
      (rev (seq 0 (S (Z.to_nat (Z.log2 (Z.abs n)))))).

(** A binary digit as [bin] writes it. *)
Definition digit_char (b : bool) : ascii := if b then "1"%char else "0"%char.

(** The count of 1-bits in that representation. *)
Definition ones (n : Z) : nat := count_occ bool_dec (binary_magnitude n) true.

(** Modelled on the words of the specification: true iff the count of
    1-bits in the binary magnitude is even. *)
Definition spec_even_parity (n : Z) : bool := Nat.even (ones n).

(** The decimal literal of an integer, as it is written in a URL. *)
Definition literal (n : Z) : string := NilZero.string_of_int (Z.to_int n).

(** ** Vocabulary of the further properties *)

(** One operand is an [int] and the other a [float]. *)
Definition mixed (a b : value) : Prop :=
  (type_of a = int_ /\ type_of b = float_) \/ (type_of a = float_ /\ type_of b = int_).

(** The test [sort_list] makes on an element of its list. *)
Definition is_number (v : value) : bool := isinstance v [int_; float_].

Definition no_space (s : string) : Prop :=
  Forall (fun c => is_space c = false) (list_ascii_of_string s).

Definition has_key (key : string) (fields : list (string * Flask.json)) : Prop :=
  In key (map fst fields).

(** The shapes of a response: a success, a rejected input, the answer of
    one of the three error handlers; or a page of the framework. *)
Definition envelope (request : Flask.request) (resp : Flask.response) : Prop :=
  match resp with
  | Flask.Json body status =>
      exists fields,
        body = Flask.JObj fields /\
        ((status = 200 /\ has_key "timestamp" fields /\ ~ has_key "error" fields) \/
         (status = 400 /\ has_key "error" fields) \/
         (In status [404; 405; 500] /\ has_key "error" fields /\
          has_key "timestamp" fields /\
          Flask.fields_get fields "status" Flask.JNull = Flask.JInt status))
  | Flask.DefaultPage code =>
      Flask.req_method request = Flask.POST /\
      Flask.req_payload request = Flask.Rejected code
  | Flask.Allow _ => Flask.req_method request = Flask.OPTIONS
  end.

(** What the client gets from a view: its response, or the response to
    the exception that left it. *)
Definition served (clock : string) (v : Flask.view Flask.response) : Flask.response :=
  match v with
  | (_, Return resp) => resp
  | (_, Raise e) => Main.handle_exception clock e
  end.

End Spec.

(* ================================================================== *)
(** * Properties of the operation layer *)
(* ================================================================== *)

Module OperationLayer.
Import Py Utils Spec.

(** ** Validation *)

Lemma numeric_cases (v : value) :
  numeric v = true -> (exists z, v = VInt z) \/ (exists f, v = VFloat f).
Proof.
  destruct v; cbn; try discriminate; eauto.
Qed.

Lemma boolean_typed_cases (v : value) :
  boolean_typed v -> exists b, v = VBool b.
Proof.
  destruct v; cbv [boolean_typed type_of]; try discriminate; eauto.
Qed.

(** Case analysis on a validated operand. *)
Ltac by_numeric H :=
  let z := fresh "z" in
  let f := fresh "f" in
  destruct (numeric_cases _ H) as [[z ->] | [f ->]].

(** Both guards of the two-operand functions raise [ValueError]; which of
    the two fires depends on the other operand. *)
Lemma binary_guard_rejects_bool (op : value -> value -> outcome value) (a b : value) :
  boolean_typed a \/ boolean_typed b ->
  InvalidInput
    (if negb (isinstance a [int_; float_]) || negb (isinstance b [int_; float_]) then
       Raise (ValueError "Both inputs must be integers or floats")
     else if isinstance a [bool_] || isinstance b [bool_] then
       Raise (ValueError "Boolean values are not allowed")
     else op a b).
Proof.
  intros [Ha | Hb].
  - destruct (boolean_typed_cases _ Ha) as [x ->].
    destruct b; cbn; eexists; reflexivity.
  - destruct (boolean_typed_cases _ Hb) as [x ->].
    destruct a; cbn; eexists; reflexivity.
Qed.

(** C3. Every operation function rejects a boolean-typed operand with
    InvalidInput ([ValueError]) and computes nothing: the two-operand
    functions when either operand is a [bool], whatever the other one is,
    the one-operand functions when their operand is a [bool]. *)
Theorem boolean_operands_are_rejected (a b : value) :
  (boolean_typed a \/ boolean_typed b ->
     InvalidInput (add_numbers a b) /\
     InvalidInput (subtract_numbers a b) /\
     InvalidInput (multiply_numbers a b) /\
     InvalidInput (divide_numbers a b)) /\
  (boolean_typed a ->
     InvalidInput (square a) /\
     InvalidInput (absolute_value a) /\
     InvalidInput (is_even a) /\
     InvalidInput (is_odd a) /\
     InvalidInput (even_parity a)).
Proof.
  split.
  - intros H. repeat split.
    + exact (binary_guard_rejects_bool add a b H).
    + exact (binary_guard_rejects_bool sub a b H).
    + exact (binary_guard_rejects_bool mul a b H).
    + exact (binary_guard_rejects_bool
               (fun a b => if eq b (VInt 0)
                           then Raise (ZeroDivisionError "Cannot divide by zero")
                           else truediv a b) a b H).
  - intros H. destruct (boolean_typed_cases _ H) as [x ->].
    repeat split; eexists; reflexivity.
Qed.

Lemma boolean_operands_are_rejected_witness :
  (InvalidInput (add_numbers (VBool true) (VInt 5)) /\
   InvalidInput (subtract_numbers (VBool true) (VInt 5)) /\
   InvalidInput (multiply_numbers (VBool true) (VInt 5)) /\
   InvalidInput (divide_numbers (VBool true) (VInt 5))) /\
  (InvalidInput (square (VBool true)) /\
   InvalidInput (absolute_value (VBool true)) /\
   InvalidInput (is_even (VBool true)) /\
   InvalidInput (is_odd (VBool true)) /\
   InvalidInput (even_parity (VBool true))).
Proof.
  destruct (boolean_operands_are_rejected (VBool true) (VInt 5)) as [H2 H1].
  split.
  - apply H2. left. reflexivity.
  - apply H1. reflexivity.
Defined.

(** C4. In [divide_numbers] the validation of the operands comes before
    the test of the divisor: with an operand that is not a non-boolean
    number the call raises InvalidInput, also when [b == 0]; and when
    DivisionByZero is raised both operands were non-boolean numbers. *)
Theorem divide_validates_before_zero_check (a b : value) :
  (numeric a = false \/ numeric b = false -> InvalidInput (divide_numbers a b)) /\
  (DivisionByZero (divide_numbers a b) -> numeric a = true /\ numeric b = true).
Proof.
  split.
  - intros [H | H].
    + destruct a; try discriminate H; destruct b; cbn; eexists; reflexivity.
    + destruct b; try discriminate H; destruct a; cbn; eexists; reflexivity.
  - intros [msg H].
    destruct a; try discriminate H; destruct b; try discriminate H;
      split; reflexivity.
Qed.

Lemma divide_validates_before_zero_check_witness :
  Py.eq (VBool false) (VInt 0) = true /\
  InvalidInput (divide_numbers (VStr "10") (VBool false)) /\
  InvalidInput (divide_numbers (VNone) (VInt 0)) /\
  numeric (VInt 10) = true /\ numeric (VInt 0) = true.
Proof.
  split; [reflexivity |].
  split.
  - apply (divide_validates_before_zero_check (VStr "10") (VBool false)).
    left. reflexivity.
  - split.
    + apply (divide_validates_before_zero_check VNone (VInt 0)).
      left. reflexivity.
    + apply (divide_validates_before_zero_check (VInt 10) (VInt 0)).
      exists "Cannot divide by zero"%string. reflexivity.
Defined.

(** ** Parity of an integer *)

Lemma land_1_is_parity (n : Z) : (Z.land n 1 =? 0) = Z.even n.
Proof.
  change 1 with (Z.ones 1).
  rewrite Z.land_ones by lia.
  rewrite Zeven_mod. reflexivity.
Qed.

Lemma is_even_of_int (n : Z) : is_even (VInt n) = Return (VBool (Z.even n)).
Proof.
  change (is_even (VInt n)) with (Return (not_ (VInt (Z.land n 1)))).
  unfold not_, truth.
  rewrite land_1_is_parity, negb_involutive. reflexivity.
Qed.

Lemma is_odd_of_int (n : Z) : is_odd (VInt n) = Return (VBool (Z.odd n)).
Proof.
  change (is_odd (VInt n)) with (Return (bool_of (VInt (Z.land n 1)))).
  unfold bool_of, truth.
  rewrite land_1_is_parity, <- Z.negb_even. reflexivity.
Qed.

(** C5. For every integer [n], negative ones included, [is_even(n)] and
    [is_odd(n)] both return, and exactly one of the two booleans is true. *)
Theorem is_even_xor_is_odd (n : Z) :
  exists even odd : bool,
    is_even (VInt n) = Return (VBool even) /\
    is_odd (VInt n) = Return (VBool odd) /\
    xorb even odd = true.
Proof.
  exists (Z.even n), (Z.odd n).
  rewrite is_even_of_int, is_odd_of_int, <- Z.negb_even.
  repeat split. destruct (Z.even n); reflexivity.
Qed.

(** ** Bit parity *)

Lemma binary_magnitude_double (a : Z) (b : bool) :
  0 < a -> binary_magnitude (2 * a + Z.b2z b) = (binary_magnitude a ++ [b])%list.
Proof.
  intros Ha. unfold binary_magnitude.
  assert (Hb : 0 <= Z.b2z b <= 1) by (destruct b; cbn; lia).
  rewrite (Z.abs_eq (2 * a + Z.b2z b)), (Z.abs_eq a) by lia.
  assert (Hlog : Z.log2 (2 * a + Z.b2z b) = Z.succ (Z.log2 a)).
  { destruct b; cbn [Z.b2z].
    - apply Z.log2_succ_double; assumption.
    - rewrite Z.add_0_r. apply Z.log2_double; assumption. }
  rewrite Hlog, Z2Nat.inj_succ by apply Z.log2_nonneg.
  set (k := Z.to_nat (Z.log2 a)).
  change (seq 0 (S (S k))) with (0%nat :: seq 1 (S k)).
  rewrite <- seq_shift.
  cbn [rev]. rewrite map_app, map_rev, map_map, <- map_rev.
  cbn [map]. rewrite Z.testbit_0_r.
  f_equal. apply map_ext. intros i.
  rewrite Nat2Z.inj_succ. apply Z.testbit_succ_r. lia.
Qed.

(** The digits [bin] writes for a positive integer are its minimal binary
    representation. *)
Lemma pos_bits_is_binary_magnitude (p : positive) (acc : string) :
  list_ascii_of_string (pos_bits p acc)
  = (map digit_char (binary_magnitude (Zpos p)) ++ list_ascii_of_string acc)%list.
Proof.
  revert acc. induction p as [q IH | q IH | ]; intros acc; cbn [pos_bits].
  - rewrite IH. change (Zpos q~1) with (2 * Zpos q + Z.b2z true).
    rewrite (binary_magnitude_double (Zpos q) true) by reflexivity.
    rewrite map_app, <- app_assoc. reflexivity.
  - rewrite IH. change (Zpos q~0) with (2 * Zpos q + Z.b2z false).
    rewrite (binary_magnitude_double (Zpos q) false) by reflexivity.
    rewrite map_app, <- app_assoc. reflexivity.
  - reflexivity.
Qed.

(** The loop of [even_parity] counts the digits that are 1. *)
Lemma loop_counts_ones (digits : list bool) (rest : list ascii) (count : Z) :
  fold_left count_bit (map digit_char digits ++ rest)%list count
  = fold_left count_bit rest (count + Z.of_nat (count_occ bool_dec digits true)).
Proof.
  revert count. induction digits as [| d digits IH]; intros count; cbn [map app fold_left].
  - cbn. rewrite Z.add_0_r. reflexivity.
  - rewrite IH. destruct d; cbn [digit_char count_bit count_occ].
    + destruct (bool_dec true true) as [_ | N]; [| contradiction N; reflexivity].
      change (count_bit count "1") with (count + 1). f_equal. lia.
    + destruct (bool_dec false true) as [E | _]; [discriminate E |].
      change (count_bit count "0") with count. reflexivity.
Qed.

Lemma even_of_nat (k : nat) : Z.even (Z.of_nat k) = Nat.even k.
Proof.
  enough (H : Z.even (Z.of_nat k) = Nat.even k /\ Z.odd (Z.of_nat k) = Nat.odd k)
    by apply H.
  induction k as [| k [IHe IHo]].
  - split; reflexivity.
  - rewrite Nat2Z.inj_succ, Z.even_succ, Z.odd_succ, Nat.even_succ, Nat.odd_succ.
    split; assumption.
Qed.

(** What the loop has counted when it ends, for every integer. *)
Lemma even_parity_count (n : Z) :
  fold_left count_bit (list_ascii_of_string (slice_from 2 (bin_int n))) 0
  = Z.of_nat (ones n).
Proof.
  unfold ones. destruct n as [| p | p].
  - reflexivity.
  - change (slice_from 2 (bin_int (Zpos p))) with (pos_bits p "").
    rewrite pos_bits_is_binary_magnitude, loop_counts_ones. reflexivity.
  - change (slice_from 2 (bin_int (Zneg p))) with (String "b" (pos_bits p "")).
    change (binary_magnitude (Zneg p)) with (binary_magnitude (Zpos p)).
    cbn [list_ascii_of_string fold_left].
    change (count_bit 0 "b") with 0.
    rewrite pos_bits_is_binary_magnitude, loop_counts_ones. reflexivity.
Qed.

Lemma even_parity_of_int (n : Z) :
  even_parity (VInt n) = Return (VBool (spec_even_parity n)).
Proof.
  change (even_parity (VInt n)) with
    (Return (not_ (VInt (Z.land
       (fold_left count_bit (list_ascii_of_string (slice_from 2 (bin_int n))) 0) 1)))).
  rewrite even_parity_count. unfold not_, truth, spec_even_parity.
  rewrite land_1_is_parity, negb_involutive, even_of_nat. reflexivity.
Qed.

(** C2. For every integer [n], positive, zero or negative,
    [even_parity(n)] returns true iff the count of 1-bits in the minimal
    unsigned binary representation of [|n|] is even; the result does not
    depend on the sign: [even_parity(n) == even_parity(-n)]. *)
Theorem even_parity_counts_magnitude_bits (n : Z) :
  even_parity (VInt n) = Return (VBool (Nat.even (ones n))) /\
  even_parity (VInt n) = even_parity (VInt (- n)).
Proof.
  split.
  - apply even_parity_of_int.
  - rewrite !even_parity_of_int. unfold spec_even_parity, ones, binary_magnitude.
    rewrite Z.abs_opp. reflexivity.
Qed.

(** ** Square *)

(** C8. For every non-boolean numeric [n], [square(n)] gives what
    [multiply_numbers(n, n)] gives: the same value, or the same failure of
    the conversion. *)
Theorem square_is_multiply_by_itself (n : value) :
  numeric n = true -> square n = multiply_numbers n n.
Proof.
  intros H. by_numeric H; reflexivity.
Qed.

Lemma square_is_multiply_by_itself_witness :
  square (VInt (-5)) = multiply_numbers (VInt (-5)) (VInt (-5)) /\
  square (VInt (-5)) = Return (VInt 25).
Proof.
  split.
  - apply (square_is_multiply_by_itself (VInt (-5))). reflexivity.
  - reflexivity.
Defined.

(** ** Conversion of an integer to a float

    The conversion shifts the mantissa right by fewer places than it has
    digits, so an integer that is not zero never becomes a float zero. *)

Lemma shr_1_digits (r : shr_record) (m : positive) :
  shr_m r = Zpos m -> 1 < Zpos (digits2_pos m) ->
  exists q, shr_m (shr_1 r) = Zpos q /\ Zpos (digits2_pos q) = Zpos (digits2_pos m) - 1.
Proof.
  destruct r as [mm rr ss]. cbn [shr_m]. intros -> H.
  destruct m as [q | q |]; cbn [digits2_pos] in *; [| | lia];
    exists q; split; try reflexivity; lia.
Qed.

Lemma iter_shr_1_digits (n : positive) : forall (r : shr_record) (m : positive),
  shr_m r = Zpos m -> Zpos n < Zpos (digits2_pos m) ->
  exists q, shr_m (iter_pos shr_1 n r) = Zpos q
            /\ Zpos (digits2_pos q) = Zpos (digits2_pos m) - Zpos n.
Proof.
  induction n as [n IH | n IH |]; intros r m Hr Hn; cbn [iter_pos].
  - destruct (shr_1_digits r m Hr) as (q0 & H0 & D0); [lia |].
    destruct (IH _ _ H0) as (q1 & H1 & D1); [lia |].
    destruct (IH _ _ H1) as (q2 & H2 & D2); [lia |].
    exists q2. split; [assumption | lia].
  - destruct (IH _ _ Hr) as (q1 & H1 & D1); [lia |].
    destruct (IH _ _ H1) as (q2 & H2 & D2); [lia |].
    exists q2. split; [assumption | lia].
  - destruct (shr_1_digits r m Hr) as (q0 & H0 & D0); [lia |].
    exists q0. split; [assumption | lia].
Qed.

Lemma shr_record_of_loc_m (m : Z) (l : location) : shr_m (shr_record_of_loc m l) = m.
Proof. destruct l as [| []]; reflexivity. Qed.

Lemma shr_fexp_positive (m : positive) (e : Z) (l : location) :
  emin prec emax < Zpos (digits2_pos m) + e ->
  exists q,
    shr_m (fst (shr_fexp prec emax (Zpos m) e l)) = Zpos q /\
    Zpos (digits2_pos q) + snd (shr_fexp prec emax (Zpos m) e l)
      = Zpos (digits2_pos m) + e.
Proof.
  intros H. unfold shr_fexp, shr. cbn [Zdigits2].
  destruct (fexp prec emax (Zpos (digits2_pos m) + e) - e) as [| n | n] eqn:E;
    cbn [fst snd].
  - exists m. split; [apply shr_record_of_loc_m | reflexivity].
  - destruct (iter_shr_1_digits n (shr_record_of_loc (Zpos m) l) m) as (q & Hq & Dq).
    + apply shr_record_of_loc_m.
    + unfold fexp, emin, prec, emax in *. lia.
    + exists q. split; [assumption | lia].
  - exists m. split; [apply shr_record_of_loc_m | reflexivity].
Qed.

Lemma digits2_pos_succ (p : positive) :
  Zpos (digits2_pos p) <= Zpos (digits2_pos (Pos.succ p)).
Proof.
  induction p as [p IH | p IH |]; cbn [Pos.succ digits2_pos]; lia.
Qed.

Lemma round_nearest_even_positive (m : positive) (l : location) :
  exists q, round_nearest_even (Zpos m) l = Zpos q
            /\ Zpos (digits2_pos m) <= Zpos (digits2_pos q).
Proof.
  assert (Hs : exists q, Zpos m + 1 = Zpos q /\ Zpos (digits2_pos m) <= Zpos (digits2_pos q)).
  { exists (Pos.succ m). split; [lia | apply digits2_pos_succ]. }
  assert (Hi : exists q, Zpos m = Zpos q /\ Zpos (digits2_pos m) <= Zpos (digits2_pos q)).
  { exists m. split; [reflexivity | lia]. }
  unfold round_nearest_even.
  destruct l as [| []]; try assumption.
  destruct (Z.even (Zpos m)); assumption.
Qed.

Lemma binary_round_aux_not_zero (s : bool) (m : positive) (e : Z) (l : location) :
  emin prec emax < Zpos (digits2_pos m) + e ->
  float_is_zero (binary_round_aux prec emax s (Zpos m) e l) = false.
Proof.
  intros H. unfold binary_round_aux.
  destruct (shr_fexp_positive m e l H) as (q1 & H1 & D1).
  destruct (shr_fexp prec emax (Zpos m) e l) as [mrs1 e1]. cbn [fst snd] in H1, D1.
  rewrite H1.
  destruct (round_nearest_even_positive q1 (loc_of_shr_record mrs1)) as (q2 & -> & D2).
  destruct (shr_fexp_positive q2 e1 loc_Exact) as (q3 & H3 & _); [lia |].
  destruct (shr_fexp prec emax (Zpos q2) e1 loc_Exact) as [mrs3 e3]. cbn [fst] in H3.
  rewrite H3.
  destruct (e3 <=? emax - prec); reflexivity.
Qed.

Lemma binary_round_not_zero (s : bool) (m : positive) :
  float_is_zero (binary_round prec emax s m 0) = false.
Proof.
  unfold binary_round, shl_align.
  destruct (fexp prec emax (Zpos (digits2_pos m) + 0) - 0) as [| d | d] eqn:E;
    apply binary_round_aux_not_zero; unfold fexp, emin, prec, emax in *; lia.
Qed.

Lemma float_of_int_not_zero (z : Z) (f : spec_float) :
  z <> 0 -> float_of_int z = Return f -> float_is_zero f = false.
Proof.
  intros Hz. unfold float_of_int, binary_normalize.
  destruct z as [| p | p]; [contradiction Hz; reflexivity | |].
  - pose proof (binary_round_not_zero false p) as N.
    destruct (binary_round prec emax false p 0); intros E; inversion E; subst;
      first [exact N | reflexivity].
  - pose proof (binary_round_not_zero true p) as N.
    destruct (binary_round prec emax true p 0); intros E; inversion E; subst;
      first [exact N | reflexivity].
Qed.

(** ** Comparison with zero *)

Lemma eq_zero_int (z : Z) : Py.eq (VInt z) (VInt 0) = (z =? 0).
Proof. destruct z; reflexivity. Qed.

Lemma finite_compare_zero (s : bool) (m : positive) (e : Z) :
  float_compare_int (S754_finite s m e) 0 = Some (if s then Lt else Gt).
Proof.
  unfold float_compare_int. f_equal.
  destruct (0 <=? e) eqn:He.
  - apply Z.leb_le in He.
    pose proof (Z.pow_pos_nonneg 2 e ltac:(lia) He) as Hp.
    destruct s; cbn [cond_Zopp].
    + apply Z.compare_lt_iff. nia.
    + apply Z.compare_gt_iff. nia.
  - rewrite Z.mul_0_l. destruct s; reflexivity.
Qed.

Lemma eq_zero_float (f : spec_float) : Py.eq (VFloat f) (VInt 0) = float_is_zero f.
Proof.
  unfold Py.eq. cbn [as_number compare_number].
  destruct f as [s | s | | s m e]; try reflexivity.
  - destruct s; reflexivity.
  - rewrite finite_compare_zero. destruct s; reflexivity.
Qed.

(** ** Division *)

Lemma float_of_int_raises (z : Z) (e : exn) :
  float_of_int z = Raise e -> e = OverflowError "int too large to convert to float".
Proof.
  unfold float_of_int.
  destruct (binary_normalize prec emax z 0 false); intros E; inversion E; reflexivity.
Qed.

Lemma divide_numbers_validated (a b : value) :
  numeric a = true -> numeric b = true ->
  divide_numbers a b
  = if Py.eq b (VInt 0) then Raise (ZeroDivisionError "Cannot divide by zero")
    else truediv a b.
Proof.
  intros Ha Hb. by_numeric Ha; by_numeric Hb; reflexivity.
Qed.

(** The operator [/] with a divisor that is not zero: a float, or an
    [OverflowError], which takes an [int] operand. *)
Lemma truediv_nonzero (a b : value) :
  numeric a = true -> numeric b = true -> Py.eq b (VInt 0) = false ->
  returns_float (truediv a b) \/
  (Overflow (truediv a b) /\ (type_of a = int_ \/ type_of b = int_)).
Proof.
  intros Ha Hb Hz. by_numeric Ha; by_numeric Hb; unfold truediv;
    cbn [as_number to_float bind type_of].
  - rewrite eq_zero_int in Hz. unfold int_true_divide. rewrite Hz.
    destruct (SFdiv prec emax (exact_of_int z) (exact_of_int z0)) eqn:Q;
      first [ left; eexists; reflexivity
            | right; split; [eexists; reflexivity | left; reflexivity] ].
  - rewrite eq_zero_float in Hz.
    destruct (float_of_int z) as [fx | e] eqn:C; cbn [bind].
    + left. unfold float_div. rewrite Hz. eexists; reflexivity.
    + right. rewrite (float_of_int_raises _ _ C).
      split; [eexists; reflexivity | left; reflexivity].
  - rewrite eq_zero_int in Hz. apply Z.eqb_neq in Hz.
    destruct (float_of_int z) as [fy | e] eqn:C; cbn [bind].
    + left. unfold float_div. rewrite (float_of_int_not_zero _ _ Hz C).
      eexists; reflexivity.
    + right. rewrite (float_of_int_raises _ _ C).
      split; [eexists; reflexivity | right; reflexivity].
  - rewrite eq_zero_float in Hz.
    left. unfold float_div. rewrite Hz. eexists; reflexivity.
Qed.

(** C1, as the code has it. For non-boolean numeric [a] and [b],
    [divide_numbers(a, b)] raises DivisionByZero iff [b == 0]; otherwise
    it is [a / b], which is a float, or, only with an [int] operand, an
    [OverflowError] for a conversion or quotient beyond the floats. *)
Theorem divide_numbers_zero_iff_else_quotient (a b : value) :
  numeric a = true -> numeric b = true ->
  (DivisionByZero (divide_numbers a b) <-> Py.eq b (VInt 0) = true) /\
  (Py.eq b (VInt 0) = false ->
     divide_numbers a b = truediv a b /\
     (returns_float (divide_numbers a b) \/
      (Overflow (divide_numbers a b) /\ (type_of a = int_ \/ type_of b = int_)))).
Proof.
  intros Ha Hb. rewrite (divide_numbers_validated a b Ha Hb).
  destruct (Py.eq b (VInt 0)) eqn:Hz.
  - split.
    + split; [reflexivity | intros _; eexists; reflexivity].
    + discriminate.
  - pose proof (truediv_nonzero a b Ha Hb Hz) as Hq. split.
    + split; [| discriminate].
      intros [msg Hd]. destruct Hq as [[f Hf] | [[m Hm] _]];
        rewrite Hd in *; discriminate.
    + intros _. split; [reflexivity | exact Hq].
Qed.

Lemma divide_numbers_zero_iff_else_quotient_witness :
  DivisionByZero (divide_numbers (VInt 10) (VFloat (S754_zero true))) /\
  divide_numbers (VInt 10) (VInt 4) = truediv (VInt 10) (VInt 4) /\
  (returns_float (divide_numbers (VInt 10) (VInt 4)) \/
   (Overflow (divide_numbers (VInt 10) (VInt 4)) /\
    (type_of (VInt 10) = int_ \/ type_of (VInt 4) = int_))).
Proof.
  split.
  - apply (divide_numbers_zero_iff_else_quotient (VInt 10) (VFloat (S754_zero true)));
      reflexivity.
  - apply (divide_numbers_zero_iff_else_quotient (VInt 10) (VInt 4)); reflexivity.
Defined.

(** C1 as stated fails: with the divisor 1 and the dividend 2^1024 no
    float is returned, the call raises [OverflowError]. *)
Lemma divide_numbers_overflow_counterexample :
  numeric (VInt (2 ^ 1024)) = true /\ numeric (VInt 1) = true /\
  Py.eq (VInt 1) (VInt 0) = false /\
  divide_numbers (VInt (2 ^ 1024)) (VInt 1)
    = Raise (OverflowError "integer division result too large for a float") /\
  ~ returns_float (divide_numbers (VInt (2 ^ 1024)) (VInt 1)).
Proof.
  assert (E : divide_numbers (VInt (2 ^ 1024)) (VInt 1)
              = Raise (OverflowError "integer division result too large for a float"))
    by (vm_compute; reflexivity).
  repeat split; try reflexivity; try exact E.
  intros [f Hf]. rewrite E in Hf. discriminate Hf.
Qed.

(** ** Absolute value *)

Lemma ge_abs_float (f : spec_float) :
  f <> S754_nan -> ge (VFloat (SFabs f)) (VInt 0) = Return true.
Proof.
  intros Hf. unfold ge. cbn [as_number compare_number].
  destruct f as [s | s | | s m e]; cbn [SFabs]; try reflexivity.
  - contradiction Hf; reflexivity.
  - rewrite finite_compare_zero. reflexivity.
Qed.

(** C9, as the code has it. For every non-boolean numeric [n],
    [absolute_value(n)] and [absolute_value(-n)] are the same value; and
    unless [n] is the float NaN, [absolute_value(n) >= 0]. *)
Theorem absolute_value_even_and_nonnegative (n : value) :
  numeric n = true ->
  (exists m, neg n = Return m /\ absolute_value m = absolute_value n) /\
  (is_nan n = false ->
   exists r, absolute_value n = Return r /\ ge r (VInt 0) = Return true).
Proof.
  intros H. by_numeric H.
  - split.
    + exists (VInt (- z)). split; [reflexivity |].
      change (Return (VInt (Z.abs (- z))) = Return (VInt (Z.abs z))).
      rewrite Z.abs_opp. reflexivity.
    + intros _. exists (VInt (Z.abs z)). split; [reflexivity |].
      destruct z; reflexivity.
  - split.
    + exists (VFloat (SFopp f)). split; [reflexivity |].
      destruct f; reflexivity.
    + intros Hn. exists (VFloat (SFabs f)). split; [reflexivity |].
      apply ge_abs_float. intros ->. discriminate Hn.
Qed.

Lemma absolute_value_even_and_nonnegative_witness :
  (exists m, neg (VFloat (S754_zero true)) = Return m /\
             absolute_value m = absolute_value (VFloat (S754_zero true))) /\
  (exists r, absolute_value (VInt (-5)) = Return r /\ ge r (VInt 0) = Return true).
Proof.
  split.
  - apply (absolute_value_even_and_nonnegative (VFloat (S754_zero true))). reflexivity.
  - apply (absolute_value_even_and_nonnegative (VInt (-5))); reflexivity.
Defined.

(** C9 as stated fails at the float NaN, a non-boolean numeric operand:
    its absolute value is NaN, and [NaN >= 0] is false. *)
Lemma absolute_value_nan_counterexample :
  numeric (VFloat S754_nan) = true /\
  absolute_value (VFloat S754_nan) = Return (VFloat S754_nan) /\
  ge (VFloat S754_nan) (VInt 0) = Return false.
Proof. repeat split. Qed.

(** ** Float operands *)

(** C10, as the code has it. On two floats no operation raises
    InvalidInput: addition, subtraction, multiplication, square and
    absolute value return the IEEE result, and so does division unless the
    divisor is [0.0] or [-0.0], where it raises DivisionByZero. *)
Theorem float_operands_are_accepted (x y : spec_float) :
  add_numbers (VFloat x) (VFloat y) = Return (VFloat (SFadd prec emax x y)) /\
  subtract_numbers (VFloat x) (VFloat y) = Return (VFloat (SFsub prec emax x y)) /\
  multiply_numbers (VFloat x) (VFloat y) = Return (VFloat (SFmul prec emax x y)) /\
  square (VFloat x) = Return (VFloat (SFmul prec emax x x)) /\
  absolute_value (VFloat x) = Return (VFloat (SFabs x)) /\
  ~ InvalidInput (divide_numbers (VFloat x) (VFloat y)) /\
  (float_is_zero y = false ->
   divide_numbers (VFloat x) (VFloat y) = Return (VFloat (SFdiv prec emax x y))) /\
  (float_is_zero y = true -> DivisionByZero (divide_numbers (VFloat x) (VFloat y))).
Proof.
  assert (D : divide_numbers (VFloat x) (VFloat y)
              = if float_is_zero y
                then Raise (ZeroDivisionError "Cannot divide by zero")
                else Return (VFloat (SFdiv prec emax x y))).
  { rewrite divide_numbers_validated by reflexivity.
    rewrite eq_zero_float. unfold truediv. cbn [as_number to_float bind].
    unfold float_div. destruct (float_is_zero y); reflexivity. }
  repeat split; try reflexivity.
  - rewrite D. intros [msg E]. destruct (float_is_zero y); discriminate E.
  - intros Hy. rewrite D, Hy. reflexivity.
  - intros Hy. rewrite D, Hy. eexists; reflexivity.
Qed.

Lemma float_operands_are_accepted_witness :
  divide_numbers (VFloat (S754_finite false 4503599627370496 (-52)))
                 (VFloat (S754_finite false 4503599627370496 (-51)))
    = Return (VFloat (S754_finite false 4503599627370496 (-53))) /\
  DivisionByZero (divide_numbers (VFloat S754_nan) (VFloat (S754_zero true))).
Proof.
  split.
  - apply (float_operands_are_accepted
             (S754_finite false 4503599627370496 (-52))
             (S754_finite false 4503599627370496 (-51))).
    reflexivity.
  - apply (float_operands_are_accepted S754_nan (S754_zero true)). reflexivity.
Defined.

(** C10 as stated fails for [divide_numbers]: the floats 1.0 and 0.0 are
    non-boolean float operands, and the call returns no result, it raises
    DivisionByZero. *)
Lemma divide_float_by_zero_counterexample :
  divide_numbers (VFloat (S754_finite false 4503599627370496 (-52)))
                 (VFloat (S754_zero false))
    = Raise (ZeroDivisionError "Cannot divide by zero") /\
  ~ (exists r, divide_numbers (VFloat (S754_finite false 4503599627370496 (-52)))
                              (VFloat (S754_zero false)) = Return r).
Proof.
  split; [reflexivity |]. intros [r H]. discriminate H.
Qed.

(** ** The cases of the unit tests *)

Example even_parity_cases :
  map even_parity [VInt 3; VInt 0; VInt 5; VInt 6; VInt 4; VInt 2; VInt 1; VInt 7]
  = map (fun b => Return (VBool b))
        [true; true; true; true; false; false; false; false].
Proof. reflexivity. Qed.

Example even_parity_rejects_float_and_str :
  InvalidInput (even_parity (VFloat (S754_finite false 5 (-1)))) /\
  InvalidInput (even_parity (VStr "2")).
Proof. split; eexists; reflexivity. Qed.

Example bin_cases :
  bin_int 5 = "0b101"%string /\ bin_int (-5) = "-0b101"%string /\
  slice_from 2 (bin_int (-5)) = "b101"%string /\ bin_int 0 = "0b0"%string.
Proof. repeat split. Qed.

(** [10 / 2 == 5.0], [-10 / 2 == -5.0], and [10 / 3] is the float next to
    3.3333333333333335. *)
Example divide_cases :
  divide_numbers (VInt 10) (VInt 2) = Return (VFloat (S754_finite false 5629499534213120 (-50))) /\
  divide_numbers (VInt (-10)) (VInt 2) = Return (VFloat (S754_finite true 5629499534213120 (-50))) /\
  divide_numbers (VInt 10) (VInt 3) = Return (VFloat (S754_finite false 7505999378950827 (-51))) /\
  divide_numbers (VInt 10) (VInt 0) = Raise (ZeroDivisionError "Cannot divide by zero") /\
  InvalidInput (divide_numbers (VInt 10) (VStr "2")).
Proof. repeat split; try reflexivity. eexists; reflexivity. Qed.

Example arithmetic_cases :
  add_numbers (VInt 10) (VInt (-7)) = Return (VInt 3) /\
  subtract_numbers (VInt 3) (VInt 10) = Return (VInt (-7)) /\
  multiply_numbers (VInt (-5)) (VInt 3) = Return (VInt (-15)) /\
  square (VInt (-5)) = Return (VInt 25) /\
  absolute_value (VInt (-5)) = Return (VInt 5) /\
  InvalidInput (add_numbers VNone (VInt 5)) /\
  InvalidInput (add_numbers (VStr "5") (VInt 3)).
Proof. repeat split; try reflexivity; eexists; reflexivity. Qed.

End OperationLayer.

(* ================================================================== *)
(** * Properties of the HTTP layer *)
(* ================================================================== *)

Module HttpLayer.
Import Py Flask Spec.
Local Open Scope string_scope.

(** ** Missing parameters *)

(** The answer of the four arithmetic views to a request without [a] or
    without [b]; the empty log says that nothing was called. *)
Lemma two_parameter_guard (request : request) (body : Z -> Z -> view response)
    (handler : exn -> option (view response)) :
  args_get (req_args request) "a" = None \/ args_get (req_args request) "b" = None ->
  try_except
    (match args_get (req_args request) "a", args_get (req_args request) "b" with
     | Some a, Some b =>
         a <~ lift (int_of_str a) ;;
         b <~ lift (int_of_str b) ;;
         body a b
     | _, _ => ret (Json (Main.error_body "Parameters 'a' and 'b' are required") 400)
     end)
    handler
  = ([], Return (Json (JObj [("error", JStr "Parameters 'a' and 'b' are required")]) 400)).
Proof.
  intros [H | H]; rewrite H.
  - reflexivity.
  - destruct (args_get (req_args request) "a"); reflexivity.
Qed.

(** C6. Each of the views behind [/api/add], [/api/subtract],
    [/api/multiply] and [/api/divide] answers a request whose query lacks
    [a] or [b] with status 400 and the body
    [{"error": "Parameters 'a' and 'b' are required"}], and calls no
    function of the operation layer. *)
Theorem missing_parameter_is_rejected (clock : string) (request : request) :
  args_get (req_args request) "a" = None \/ args_get (req_args request) "b" = None ->
  let rejected : view response :=
    ([], Return (Json (JObj [("error", JStr "Parameters 'a' and 'b' are required")]) 400)) in
  Main.add clock request = rejected /\
  Main.subtract clock request = rejected /\
  Main.multiply clock request = rejected /\
  Main.divide clock request = rejected.
Proof.
  intros H rejected. unfold Main.add, Main.subtract, Main.multiply, Main.divide.
  repeat split; apply two_parameter_guard; exact H.
Qed.

Lemma missing_parameter_is_rejected_witness :
  let request := {| req_method := GET; req_path := "/api/add";
                    req_args := [("a", "5")]; req_payload := Rejected 415 |} in
  let rejected : view response :=
    ([], Return (Json (JObj [("error", JStr "Parameters 'a' and 'b' are required")]) 400)) in
  Main.add "2024-01-01T12:00:00+00:00" request = rejected /\
  Main.subtract "2024-01-01T12:00:00+00:00" request = rejected /\
  Main.multiply "2024-01-01T12:00:00+00:00" request = rejected /\
  Main.divide "2024-01-01T12:00:00+00:00" request = rejected.
Proof.
  intros request.
  apply (missing_parameter_is_rejected "2024-01-01T12:00:00+00:00" request).
  right. reflexivity.
Defined.

(** The same through the route table, for [GET /api/add] without
    parameters. *)
Example add_without_parameters (clock : string) (payload : payload) :
  Main.dispatch_request clock
    {| req_method := GET; req_path := "/api/add"; req_args := [];
       req_payload := payload |}
  = ([], Json (JObj [("error", JStr "Parameters 'a' and 'b' are required")]) 400).
Proof. reflexivity. Qed.

(** ** Routing of the parity paths *)

Lemma literal_negative (n : Z) :
  n < 0 -> exists digits, literal n = String "-" digits.
Proof.
  destruct n as [| p | p]; intros H; try discriminate H.
  eexists. reflexivity.
Qed.

Lemma split_minus (rest : string) :
  exists first others, split "/" (String "-" rest) = String "-" first :: others.
Proof.
  cbn [split]. change (Ascii.eqb "-" "/") with false. cbv iota.
  destruct (split "/" rest) as [| first others]; eauto.
Qed.

(** No rule matches a path whose segment after [/api/parity/] or
    [/api/odd_even/] begins with a minus sign: the [int] converter turns
    the segment down, and every other rule differs in its text. *)
Lemma minus_segment_matches_nothing (clock rest : string) :
  Main.matching (Main.url_map clock) ("/api/parity/" ++ String "-" rest) = [] /\
  Main.matching (Main.url_map clock) ("/api/odd_even/" ++ String "-" rest) = [].
Proof.
  destruct (split_minus rest) as (first & others & Hs).
  split.
  - assert (P : split "/" ("/api/parity/" ++ String "-" rest)
                = "" :: "api" :: "parity" :: String "-" first :: others).
    { change (split "/" ("/api/parity/" ++ String "-" rest))
        with ("" :: "api" :: "parity" :: split "/" (String "-" rest)).
      rewrite Hs. reflexivity. }
    unfold Main.matching, Main.url_map, match_rule, Main.rule. rewrite P.
    reflexivity.
  - assert (P : split "/" ("/api/odd_even/" ++ String "-" rest)
                = "" :: "api" :: "odd_even" :: String "-" first :: others).
    { change (split "/" ("/api/odd_even/" ++ String "-" rest))
        with ("" :: "api" :: "odd_even" :: split "/" (String "-" rest)).
      rewrite Hs. reflexivity. }
    unfold Main.matching, Main.url_map, match_rule, Main.rule. rewrite P.
    reflexivity.
Qed.

(** C7. A request for [/api/parity/n] or [/api/odd_even/n] with the
    literal of a negative integer [n] matches no route: whatever its method
    and query, it gets the response of the 404 handler, status 404 (not
    400), and no view runs. *)
Theorem negative_path_is_not_found (clock : string) (n : Z) (request : request) :
  n < 0 ->
  req_path request = "/api/parity/" ++ literal n \/
  req_path request = "/api/odd_even/" ++ literal n ->
  Main.dispatch_request clock request = ([], Main.not_found clock) /\
  status_of (snd (Main.dispatch_request clock request)) = 404.
Proof.
  intros Hn Hpath.
  destruct (literal_negative n Hn) as [digits Hl]. rewrite Hl in Hpath.
  destruct (minus_segment_matches_nothing clock digits) as [Hp Ho].
  assert (E : Main.dispatch_request clock request = ([], Main.not_found clock)).
  { unfold Main.dispatch_request.
    destruct Hpath as [-> | ->]; [rewrite Hp | rewrite Ho]; reflexivity. }
  rewrite E. split; reflexivity.
Qed.

Lemma negative_path_is_not_found_witness :
  let request := {| req_method := GET; req_path := "/api/parity/-4";
                    req_args := []; req_payload := Rejected 415 |} in
  Main.dispatch_request "2024-01-01T12:00:00+00:00" request
    = ([], Main.not_found "2024-01-01T12:00:00+00:00") /\
  status_of (snd (Main.dispatch_request "2024-01-01T12:00:00+00:00" request)) = 404.
Proof.
  intros request.
  apply (negative_path_is_not_found "2024-01-01T12:00:00+00:00" (-4) request).
  - reflexivity.
  - left. reflexivity.
Defined.

(** ** The endpoint cases of the specification *)

Example get_add (clock : string) (payload : payload) :
  Main.dispatch_request clock
    {| req_method := GET; req_path := "/api/add";
       req_args := [("a", "5"); ("b", "3")]; req_payload := payload |}
  = ([{| callee := "add_numbers"; operands := [VInt 5; VInt 3] |}],
     Json (JObj [("operation", JStr "add"); ("a", JInt 5); ("b", JInt 3);
                 ("result", JInt 8); ("timestamp", JStr clock)]) 200).
Proof. reflexivity. Qed.

Example get_divide_by_zero (clock : string) (payload : payload) :
  Main.dispatch_request clock
    {| req_method := GET; req_path := "/api/divide";
       req_args := [("a", "10"); ("b", "0")]; req_payload := payload |}
  = ([{| callee := "divide_numbers"; operands := [VInt 10; VInt 0] |}],
     Json (JObj [("error", JStr "Division by zero is not allowed")]) 400).
Proof. reflexivity. Qed.

Example get_parity_4 (clock : string) (payload : payload) :
  Main.dispatch_request clock
    {| req_method := GET; req_path := "/api/parity/4";
       req_args := []; req_payload := payload |}
  = ([{| callee := "is_even"; operands := [VInt 4] |};
      {| callee := "is_odd"; operands := [VInt 4] |}],
     Json (JObj [("operation", JStr "parity"); ("input", JInt 4);
                 ("is_even", JBool true); ("is_odd", JBool false);
                 ("parity", JStr "even"); ("timestamp", JStr clock)]) 200).
Proof. reflexivity. Qed.

Example get_nonexistent (clock : string) (payload : payload) :
  Main.dispatch_request clock
    {| req_method := GET; req_path := "/api/nonexistent";
       req_args := []; req_payload := payload |}
  = ([], Main.not_found clock).
Proof. reflexivity. Qed.

Example post_root (clock : string) (payload : payload) :
  Main.dispatch_request clock
    {| req_method := POST; req_path := "/"; req_args := []; req_payload := payload |}
  = ([], Main.method_not_allowed clock).
Proof. reflexivity. Qed.

Example literal_cases :
  literal (-4) = "-4" /\ literal 0 = "0" /\ literal (-999999) = "-999999".
Proof. repeat split. Qed.

End HttpLayer.

(* ================================================================== *)
(** * Further properties of the arithmetic functions *)
(* ================================================================== *)

Module Arithmetic.
Import Py Utils Spec OperationLayer.

(** X1. On ints, subtracting [b] from [add_numbers(a, b)] gives [a] back,
    and adding [b] to [subtract_numbers(a, b)] does too. *)
Theorem add_then_subtract_restores (a b : Z) :
  (s <- add_numbers (VInt a) (VInt b) ;; subtract_numbers s (VInt b)) = Return (VInt a) /\
  (d <- subtract_numbers (VInt a) (VInt b) ;; add_numbers d (VInt b)) = Return (VInt a).
Proof.
  split; cbn; do 2 f_equal; lia.
Qed.


Lemma arith_raises (iop : Z -> Z -> Z) (fop : spec_float -> spec_float -> spec_float)
    (x y : number) (e : exn) :
  arith iop fop x y = Raise e ->
  e = OverflowError "int too large to convert to float" /\
  ((exists a g, x = NInt a /\ y = NFloat g) \/ (exists f b, x = NFloat f /\ y = NInt b)).
Proof.
  destruct x as [a | f], y as [b | g]; cbn [arith to_float bind].
  - discriminate.
  - destruct (float_of_int a) eqn:C; cbn [bind]; intros E; inversion E; subst.
    split; [exact (float_of_int_raises _ _ C) | left; eauto].
  - destruct (float_of_int b) eqn:C; cbn [bind]; intros E; inversion E; subst.
    split; [exact (float_of_int_raises _ _ C) | right; eauto].
  - discriminate.
Qed.

(** X2. Whatever the operands, [add_numbers], [subtract_numbers] and
    [multiply_numbers] fail in two ways only: with [ValueError], or with
    the [OverflowError] of an int too large for a float, which takes one
    int and one float operand. *)
Theorem arithmetic_failures (a b : value) (e : exn) :
  add_numbers a b = Raise e \/ subtract_numbers a b = Raise e
  \/ multiply_numbers a b = Raise e ->
  (exists msg, e = ValueError msg) \/
  (e = OverflowError "int too large to convert to float" /\ mixed a b).
Proof.
  unfold mixed.
  destruct a as [| x | x | x | x], b as [| y | y | y | y];
    intros [H | [H | H]];
    cbn -[arith] in H;
    try (inversion H; left; eexists; reflexivity);
    right; apply arith_raises in H; destruct H as [-> _];
    (split; [reflexivity |]);
    cbn [type_of]; first [left; split; reflexivity | right; split; reflexivity].
Qed.

Lemma arithmetic_failures_witness :
  (exists msg, OverflowError "int too large to convert to float" = ValueError msg) \/
  (OverflowError "int too large to convert to float"
     = OverflowError "int too large to convert to float" /\
   mixed (VInt (2 ^ 1024)) (VFloat (S754_zero false))).
Proof.
  apply (arithmetic_failures (VInt (2 ^ 1024)) (VFloat (S754_zero false))).
  left. vm_compute. reflexivity.
Defined.

(** X3. Whenever [divide_numbers] returns, it returns a float, also for
    two ints that divide evenly. *)
Theorem divide_numbers_returns_floats (a b r : value) :
  divide_numbers a b = Return r -> exists f, r = VFloat f.
Proof.
  intros H.
  assert (Ha : numeric a = true) by (destruct a, b; try discriminate H; reflexivity).
  assert (Hb : numeric b = true) by (destruct a, b; try discriminate H; reflexivity).
  rewrite (divide_numbers_validated a b Ha Hb) in H.
  destruct (Py.eq b (VInt 0)) eqn:Hz; [discriminate H |].
  destruct (truediv_nonzero a b Ha Hb Hz) as [[f Hf] | [[msg Hm] _]];
    rewrite H in *; [| discriminate Hm].
  inversion Hf. exists f. reflexivity.
Qed.

Lemma divide_numbers_returns_floats_witness :
  exists f, VFloat (S754_finite false 5629499534213120 (-50)) = VFloat f.
Proof.
  apply (divide_numbers_returns_floats (VInt 10) (VInt 2)). reflexivity.
Defined.

(** X4. [is_even], [is_odd] and [even_parity] return a boolean on an int
    and raise [ValueError] on everything else: a float (whole or not), a
    bool, a string, [None]. *)
Theorem parity_functions_take_ints_only (v : value) :
  (type_of v = int_ ->
   exists e o p : bool,
     is_even v = Return (VBool e) /\ is_odd v = Return (VBool o) /\
     even_parity v = Return (VBool p)) /\
  (type_of v <> int_ ->
   InvalidInput (is_even v) /\ InvalidInput (is_odd v) /\ InvalidInput (even_parity v)).
Proof.
  split.
  - destruct v as [| x | z | f | s]; intros H; try discriminate H.
    exists (Z.even z), (Z.odd z), (spec_even_parity z).
    rewrite is_even_of_int, is_odd_of_int, even_parity_of_int. repeat split.
  - destruct v as [| x | z | f | s]; intros H;
      try (repeat split; eexists; reflexivity).
    contradiction H. reflexivity.
Qed.

Lemma parity_functions_take_ints_only_witness :
  (exists e o p : bool,
     is_even (VInt (-4)) = Return (VBool e) /\ is_odd (VInt (-4)) = Return (VBool o) /\
     even_parity (VInt (-4)) = Return (VBool p)) /\
  (InvalidInput (is_even (VFloat (S754_finite false 4503599627370496 (-50)))) /\
   InvalidInput (is_odd (VFloat (S754_finite false 4503599627370496 (-50)))) /\
   InvalidInput (even_parity (VFloat (S754_finite false 4503599627370496 (-50))))).
Proof.
  split.
  - apply (parity_functions_take_ints_only (VInt (-4))). reflexivity.
  - apply (parity_functions_take_ints_only
             (VFloat (S754_finite false 4503599627370496 (-50)))).
    discriminate.
Defined.

(** X5. The test of the low bit is the arithmetic one: [is_even(n)] is
    [n % 2 == 0] and [is_odd(n)] is [n % 2 == 1], for negative [n] too. *)
Theorem is_even_is_divisibility_by_two (n : Z) :
  is_even (VInt n) = Return (VBool (n mod 2 =? 0)) /\
  is_odd (VInt n) = Return (VBool (n mod 2 =? 1)).
Proof.
  rewrite is_even_of_int, is_odd_of_int, Zeven_mod, Zodd_mod. split; reflexivity.
Qed.

Lemma ones_double (n : Z) : ones (2 * n) = ones n.
Proof.
  unfold ones. destruct (Z.eq_dec n 0) as [-> | Hn]; [reflexivity |].
  assert (E : binary_magnitude (2 * n) = binary_magnitude (2 * Z.abs n + Z.b2z false)).
  { unfold binary_magnitude. cbn [Z.b2z]. rewrite Z.add_0_r, Z.abs_mul.
    rewrite (Z.abs_eq (2 * Z.abs n)) by lia. reflexivity. }
  rewrite E, binary_magnitude_double by lia.
  rewrite count_occ_app. cbn [count_occ].
  destruct (bool_dec false true) as [D | _]; [discriminate D |].
  rewrite Nat.add_0_r. unfold binary_magnitude. rewrite Z.abs_idemp. reflexivity.
Qed.

Lemma ones_succ_double (n : Z) : 0 <= n -> ones (2 * n + 1) = S (ones n).
Proof.
  intros Hn. unfold ones. destruct (Z.eq_dec n 0) as [-> | Hz]; [reflexivity |].
  change (2 * n + 1) with (2 * n + Z.b2z true).
  rewrite binary_magnitude_double by lia.
  rewrite count_occ_app. cbn [count_occ].
  destruct (bool_dec true true) as [_ | D]; [| contradiction D; reflexivity].
  lia.
Qed.

(** X6. Doubling an integer keeps its bit parity, and for [n >= 0]
    doubling and adding one flips it. *)
Theorem even_parity_of_double (n : Z) :
  even_parity (VInt (2 * n)) = even_parity (VInt n) /\
  (0 <= n ->
   exists p : bool,
     even_parity (VInt n) = Return (VBool p) /\
     even_parity (VInt (2 * n + 1)) = Return (VBool (negb p))).
Proof.
  rewrite !even_parity_of_int. unfold spec_even_parity. split.
  - rewrite ones_double. reflexivity.
  - intros Hn. exists (Nat.even (ones n)). split; [reflexivity |].
    rewrite ones_succ_double, Nat.even_succ, <- Nat.negb_even by assumption.
    reflexivity.
Qed.

Lemma even_parity_of_double_witness :
  exists p : bool,
    even_parity (VInt 3) = Return (VBool p) /\
    even_parity (VInt (2 * 3 + 1)) = Return (VBool (negb p)).
Proof.
  apply (even_parity_of_double 3). lia.
Defined.

(** X7. For every non-boolean number, the square of [-n] and the square
    of [absolute_value(n)] are the square of [n]. *)
Theorem square_ignores_sign (n : value) :
  numeric n = true ->
  (exists m, neg n = Return m /\ square m = square n) /\
  (exists a, absolute_value n = Return a /\ square a = square n).
Proof.
  intros H. by_numeric H.
  - split.
    + exists (VInt (- z)). split; [reflexivity |].
      change (Return (VInt (- z * - z)) = Return (VInt (z * z))).
      do 2 f_equal. lia.
    + exists (VInt (Z.abs z)). split; [reflexivity |].
      change (Return (VInt (Z.abs z * Z.abs z)) = Return (VInt (z * z))).
      do 2 f_equal. lia.
  - split.
    + exists (VFloat (SFopp f)). split; [reflexivity |].
      destruct f as [s | s | | s m e]; try reflexivity; destruct s; reflexivity.
    + exists (VFloat (SFabs f)). split; [reflexivity |].
      destruct f as [s | s | | s m e]; try reflexivity; destruct s; reflexivity.
Qed.

Lemma square_ignores_sign_witness :
  (exists m, neg (VInt (-5)) = Return m /\ square m = square (VInt (-5))) /\
  (exists a, absolute_value (VInt (-5)) = Return a /\ square a = square (VInt (-5))).
Proof.
  apply (square_ignores_sign (VInt (-5))). reflexivity.
Defined.

(** X8. The square of an int is an int that is not negative, and it is
    zero only for zero. *)
Theorem square_of_int_is_nonnegative (n : Z) :
  exists s, square (VInt n) = Return (VInt s) /\ 0 <= s /\ (s = 0 <-> n = 0).
Proof.
  exists (n * n). split; [reflexivity |]. split; [nia |]. split; nia.
Qed.

(** X9. [absolute_value] applied twice is [absolute_value], on every
    non-boolean number; on ints the absolute value of a product is the
    product of the absolute values. *)
Theorem absolute_value_idempotent_multiplicative (n : value) (a b : Z) :
  (numeric n = true ->
   (r <- absolute_value n ;; absolute_value r) = absolute_value n) /\
  (p <- multiply_numbers (VInt a) (VInt b) ;; absolute_value p)
  = (x <- absolute_value (VInt a) ;; y <- absolute_value (VInt b) ;; multiply_numbers x y).
Proof.
  split.
  - intros H. by_numeric H.
    + change (Return (VInt (Z.abs (Z.abs z))) = Return (VInt (Z.abs z))).
      rewrite Z.abs_idemp. reflexivity.
    + destruct f; reflexivity.
  - change (Return (VInt (Z.abs (a * b))) = Return (VInt (Z.abs a * Z.abs b))).
    rewrite Z.abs_mul. reflexivity.
Qed.

Lemma absolute_value_idempotent_multiplicative_witness :
  (r <- absolute_value (VInt (-5)) ;; absolute_value r) = absolute_value (VInt (-5)).
Proof.
  apply (absolute_value_idempotent_multiplicative (VInt (-5)) 0 0). reflexivity.
Defined.

(** X10. Zero divided by an int that is not zero is a float zero with
    the sign of the divisor: [0.0] for a positive one, [-0.0] for a
    negative one. *)
Theorem zero_divided_by_int (b : Z) :
  b <> 0 ->
  divide_numbers (VInt 0) (VInt b) = Return (VFloat (S754_zero (b <? 0))).
Proof.
  intros Hb. destruct b as [| p | p]; [contradiction Hb; reflexivity | |]; reflexivity.
Qed.

Lemma zero_divided_by_int_witness :
  divide_numbers (VInt 0) (VInt (-5)) = Return (VFloat (S754_zero true)).
Proof.
  apply (zero_divided_by_int (-5)). discriminate.
Defined.

End Arithmetic.

(* ================================================================== *)
(** * Properties of the string operations *)
(* ================================================================== *)

Module StringOperations.
Import Py Utils Spec.
Local Open Scope string_scope.

Lemma list_of_append (s t : string) :
  list_ascii_of_string (s ++ t) = (list_ascii_of_string s ++ list_ascii_of_string t)%list.
Proof.
  induction s as [| c s IH]; cbn; [reflexivity | rewrite IH; reflexivity].
Qed.

Lemma string_of_app (l m : list ascii) :
  string_of_list_ascii (l ++ m) = string_of_list_ascii l ++ string_of_list_ascii m.
Proof.
  induction l as [| c l IH]; cbn; [reflexivity | rewrite IH; reflexivity].
Qed.

Lemma string_rev_involutive (s : string) : string_rev (string_rev s) = s.
Proof.
  unfold string_rev.
  rewrite list_ascii_of_string_of_list_ascii, rev_involutive.
  apply string_of_list_ascii_of_string.
Qed.

Lemma string_rev_append (s t : string) :
  string_rev (s ++ t) = string_rev t ++ string_rev s.
Proof.
  unfold string_rev. rewrite list_of_append, rev_app_distr. apply string_of_app.
Qed.

Lemma string_rev_cons (c : ascii) (s : string) :
  string_rev (String c s) = string_rev s ++ String c "".
Proof.
  change (String c s) with (String c "" ++ s). apply string_rev_append.
Qed.

Lemma length_append (s t : string) :
  String.length (s ++ t) = (String.length s + String.length t)%nat.
Proof.
  induction s as [| c s IH]; cbn; [reflexivity | rewrite IH; reflexivity].
Qed.

Lemma append_empty (s : string) : s ++ "" = s.
Proof.
  induction s as [| c s IH]; cbn; [reflexivity | rewrite IH; reflexivity].
Qed.

Lemma append_assoc (s t u : string) : (s ++ t) ++ u = s ++ (t ++ u).
Proof.
  induction s as [| c s IH]; cbn; [reflexivity | rewrite IH; reflexivity].
Qed.

Lemma string_rev_length (s : string) : String.length (string_rev s) = String.length s.
Proof.
  induction s as [| c s IH]; [reflexivity |].
  rewrite string_rev_cons, length_append, IH. cbn. lia.
Qed.

(** X11. Reversing a string twice gives the string back; on anything that
    is not a string [reverse_string] and [is_palindrome] raise
    [ValueError]. *)
Theorem reverse_string_twice (text : value) :
  (type_of text = str_ ->
   (r <- reverse_string text ;; reverse_string r) = Return text) /\
  (type_of text <> str_ ->
   InvalidInput (reverse_string text) /\ InvalidInput (is_palindrome text)).
Proof.
  split.
  - destruct text as [| x | z | f | s]; intros H; try discriminate H.
    cbn. rewrite string_rev_involutive. reflexivity.
  - destruct text as [| x | z | f | s]; intros H;
      try (split; eexists; reflexivity).
    contradiction H. reflexivity.
Qed.

Lemma reverse_string_twice_witness :
  (r <- reverse_string (VStr "hello") ;; reverse_string r) = Return (VStr "hello") /\
  InvalidInput (reverse_string (VInt 5)) /\ InvalidInput (is_palindrome (VInt 5)).
Proof.
  split.
  - apply (reverse_string_twice (VStr "hello")). reflexivity.
  - apply (reverse_string_twice (VInt 5)). discriminate.
Defined.

(** X12. The reverse of [s + t] is the reverse of [t] followed by the
    reverse of [s], and a reverse has the length of its text. *)
Theorem reverse_string_of_concatenation (s t : string) :
  exists rs rt,
    reverse_string (VStr s) = Return (VStr rs) /\
    reverse_string (VStr t) = Return (VStr rt) /\
    reverse_string (VStr (s ++ t)) = Return (VStr (rt ++ rs)) /\
    String.length rs = String.length s.
Proof.
  exists (string_rev s), (string_rev t). repeat split.
  - cbn. rewrite string_rev_append. reflexivity.
  - apply string_rev_length.
Qed.

Lemma join_append (s t : string) :
  join_lower_alnum (s ++ t) = join_lower_alnum s ++ join_lower_alnum t.
Proof.
  induction s as [| c s IH]; cbn; [reflexivity |].
  destruct (isalnum c); cbn; rewrite IH; reflexivity.
Qed.

Lemma join_rev (s : string) :
  join_lower_alnum (string_rev s) = string_rev (join_lower_alnum s).
Proof.
  induction s as [| c s IH]; [reflexivity |].
  rewrite string_rev_cons, join_append, IH. cbn [join_lower_alnum].
  destruct (isalnum c).
  - rewrite string_rev_cons. reflexivity.
  - rewrite append_empty. reflexivity.
Qed.


Lemma palindrome_around (s middle : string) :
  string_rev (join_lower_alnum middle) = join_lower_alnum middle ->
  is_palindrome (VStr (s ++ middle ++ string_rev s)) = Return (VBool true).
Proof.
  intros Hm. cbn [is_palindrome].
  rewrite !join_append, join_rev.
  rewrite !string_rev_append, string_rev_involutive, Hm, append_assoc.
  unfold Py.eq. cbn [as_number]. rewrite String.eqb_refl. reflexivity.
Qed.


Lemma isalnum_lower (c : ascii) : isalnum (lower c) = isalnum c.
Proof.
  destruct c as [[] [] [] [] [] [] [] []]; reflexivity.
Qed.

Lemma lower_lower (c : ascii) : lower (lower c) = lower c.
Proof.
  destruct c as [[] [] [] [] [] [] [] []]; reflexivity.
Qed.

(** X15. [is_palindrome] does not see the case of a character, and it
    does not see a character that is not alphanumeric at all. *)
Theorem palindrome_ignores_case_and_punctuation (s t : string) (c : ascii) :
  is_palindrome (VStr (s ++ String c t)) = is_palindrome (VStr (s ++ String (lower c) t)) /\
  (isalnum c = false ->
   is_palindrome (VStr (s ++ String c t)) = is_palindrome (VStr (s ++ t))).
Proof.
  split.
  - cbn [is_palindrome]. rewrite !join_append. cbn [join_lower_alnum].
    rewrite isalnum_lower, lower_lower. reflexivity.
  - intros Hc. cbn [is_palindrome]. rewrite !join_append. cbn [join_lower_alnum].
    rewrite Hc. reflexivity.
Qed.

Lemma palindrome_ignores_case_and_punctuation_witness :
  is_palindrome (VStr ("Mad" ++ String "," "am")) = is_palindrome (VStr ("Mad" ++ "am")).
Proof.
  apply (palindrome_ignores_case_and_punctuation "Mad" "am" ","). reflexivity.
Defined.

Lemma list_is_its_reverse (l : list ascii) (d : ascii) :
  l = rev l <->
  forall i, (i < List.length l)%nat -> nth i l d = nth (List.length l - S i) l d.
Proof.
  split.
  - intros E i Hi. rewrite E at 1. apply rev_nth. assumption.
  - intros H. apply (nth_ext _ _ d d).
    + symmetry. apply length_rev.
    + intros i Hi. rewrite rev_nth by assumption. apply H. assumption.
Qed.

(** X16. [is_palindrome] answers true exactly when the lowered
    alphanumeric characters of the text read the same from both ends:
    the character at position [i] is the one at position [i] from the
    end. *)
Theorem palindrome_is_mirror_symmetry (s : string) :
  let clean := list_ascii_of_string (join_lower_alnum s) in
  is_palindrome (VStr s) = Return (VBool true) <->
  forall i, (i < List.length clean)%nat ->
            nth i clean "000"%char = nth (List.length clean - S i) clean "000"%char.
Proof.
  intros clean. rewrite <- list_is_its_reverse. cbn [is_palindrome].
  unfold Py.eq. cbn [as_number]. split.
  - intros H. inversion H as [E]. apply String.eqb_eq in E.
    unfold clean. rewrite E at 1. unfold string_rev.
    apply list_ascii_of_string_of_list_ascii.
  - intros E. unfold string_rev. fold clean. rewrite <- E. unfold clean.
    rewrite string_of_list_ascii_of_string, String.eqb_refl. reflexivity.
Qed.

Lemma palindrome_is_mirror_symmetry_witness :
  is_palindrome (VStr "Aba") = Return (VBool true).
Proof.
  apply (proj2 (palindrome_is_mirror_symmetry "Aba")).
  intros i Hi. destruct i as [| [| [| i]]]; try reflexivity.
  vm_compute in Hi. lia.
Defined.

End StringOperations.

(* ================================================================== *)
(** * Properties of the list operation *)
(* ================================================================== *)

Module ListOperations.
Import Py Utils Spec.

Lemma lt_of_numbers (x y : value) :
  is_number x = true -> is_number y = true -> exists b, lt x y = Return b.
Proof.
  destruct x, y; try discriminate; intros _ _; eexists; reflexivity.
Qed.

Lemma insert_permutes (x : value) (l : list value) :
  is_number x = true -> forallb is_number l = true ->
  exists r, insert x l = Return r /\ Permutation (x :: l) r.
Proof.
  intros Hx. induction l as [| y l IH]; intros Hl.
  - exists [x]. split; [reflexivity | apply Permutation_refl].
  - cbn [forallb] in Hl. apply andb_true_iff in Hl. destruct Hl as [Hy Hl].
    cbn [insert]. destruct (lt_of_numbers x y Hx Hy) as [b ->]. cbn [bind].
    destruct b.
    + eexists. split; [reflexivity | apply Permutation_refl].
    + destruct (IH Hl) as (r & -> & P). cbn [bind].
      exists (y :: r). split; [reflexivity |].
      apply perm_trans with (y :: x :: l); [apply perm_swap | apply perm_skip, P].
Qed.

Lemma forallb_permutation (l r : list value) :
  Permutation l r -> forallb is_number l = forallb is_number r.
Proof.
  induction 1; cbn [forallb].
  - reflexivity.
  - rewrite IHPermutation. reflexivity.
  - destruct (is_number x), (is_number y); reflexivity.
  - congruence.
Qed.

Lemma stable_sort_permutes (items acc : list value) :
  forallb is_number items = true -> forallb is_number acc = true ->
  exists r,
    fold_left (fun a x => sorted <- a ;; insert x sorted) items (Return acc) = Return r /\
    Permutation (items ++ acc) r.
Proof.
  revert acc. induction items as [| x items IH]; intros acc Hi Ha.
  - exists acc. split; [reflexivity | apply Permutation_refl].
  - cbn [forallb] in Hi. apply andb_true_iff in Hi. destruct Hi as [Hx Hi].
    cbn [fold_left bind].
    destruct (insert_permutes x acc Hx Ha) as (a' & -> & P).
    destruct (IH a' Hi) as (r & Hr & Q).
    { rewrite <- (forallb_permutation _ _ P). cbn [forallb]. rewrite Hx, Ha. reflexivity. }
    exists r. split; [exact Hr |].
    apply perm_trans with (items ++ a'); [| exact Q].
    cbn [app]. apply perm_trans with (items ++ x :: acc)%list;
      [apply Permutation_middle | apply Permutation_app_head; exact P].
Qed.


(** ** Lists of ints *)

Lemma insert_int (z : Z) (l : list Z) :
  StronglySorted Z.le l ->
  exists r, insert (VInt z) (map VInt l) = Return (map VInt r) /\
            StronglySorted Z.le r /\ Permutation (z :: l) r.
Proof.
  induction l as [| y l IH]; intros Hs.
  - exists [z]. repeat split; [repeat constructor | apply Permutation_refl].
  - apply StronglySorted_inv in Hs. destruct Hs as [Hl Hy].
    cbn [map insert].
    change (lt (VInt z) (VInt y)) with
      (Return (match z ?= y with Lt => true | _ => false end) : outcome bool).
    cbn [bind].
    destruct (Z.compare_spec z y) as [E | L | G].
    + destruct (IH Hl) as (r & -> & Sr & P). cbn [bind].
      exists (y :: r). split; [reflexivity |]. split.
      * constructor; [exact Sr |].
        apply (Permutation_Forall P). constructor; [lia | exact Hy].
      * apply perm_trans with (y :: z :: l); [apply perm_swap | apply perm_skip, P].
    + exists (z :: y :: l). split; [reflexivity |]. split.
      * constructor; [constructor; assumption |].
        constructor; [lia |].
        eapply Forall_impl; [| exact Hy]. cbn. intros; lia.
      * apply Permutation_refl.
    + destruct (IH Hl) as (r & -> & Sr & P). cbn [bind].
      exists (y :: r). split; [reflexivity |]. split.
      * constructor; [exact Sr |].
        apply (Permutation_Forall P). constructor; [lia | exact Hy].
      * apply perm_trans with (y :: z :: l); [apply perm_swap | apply perm_skip, P].
Qed.

Lemma stable_sort_ints (zs acc : list Z) :
  StronglySorted Z.le acc ->
  exists r,
    fold_left (fun a x => sorted <- a ;; insert x sorted) (map VInt zs)
              (Return (map VInt acc))
    = Return (map VInt r) /\
    StronglySorted Z.le r /\ Permutation (zs ++ acc) r.
Proof.
  revert acc. induction zs as [| z zs IH]; intros acc Ha.
  - exists acc. repeat split; [assumption | apply Permutation_refl].
  - cbn [map fold_left bind].
    destruct (insert_int z acc Ha) as (a' & -> & Sa & P).
    destruct (IH a' Sa) as (r & Hr & Sr & Q).
    exists r. split; [exact Hr |]. split; [exact Sr |].
    apply perm_trans with (zs ++ a')%list; [| exact Q].
    cbn [app]. apply perm_trans with (zs ++ z :: acc)%list;
      [apply Permutation_middle | apply Permutation_app_head; exact P].
Qed.

Lemma strongly_sorted_snoc (l : list Z) (x : Z) :
  StronglySorted Z.ge l -> Forall (fun y => y >= x) l -> StronglySorted Z.ge (l ++ [x]).
Proof.
  induction l as [| y l IH]; intros Hs Hf; cbn [app].
  - repeat constructor.
  - apply StronglySorted_inv in Hs. destruct Hs as [Hl Hy].
    apply Forall_inv in Hf as Hyx. apply Forall_inv_tail in Hf.
    constructor; [apply IH; assumption |].
    apply Forall_app. split; [exact Hy | repeat constructor; exact Hyx].
Qed.

Lemma strongly_sorted_rev (l : list Z) :
  StronglySorted Z.le l -> StronglySorted Z.ge (rev l).
Proof.
  induction 1 as [| x l Hl IH Hx]; cbn [rev]; [constructor |].
  apply strongly_sorted_snoc; [exact IH |].
  apply Forall_rev. eapply Forall_impl; [| exact Hx]. cbn. intros; lia.
Qed.

(** X18. On a list of ints [sort_list] returns the elements in
    ascending order, and in descending order with [reverse=True]. *)
Theorem sort_list_of_ints (zs : list Z) :
  (exists rs,
     sort_list (List (map VInt zs)) false = Return (List (map VInt rs)) /\
     StronglySorted Z.le rs /\ Permutation zs rs) /\
  (exists rs,
     sort_list (List (map VInt zs)) true = Return (List (map VInt rs)) /\
     StronglySorted Z.ge rs /\ Permutation zs rs).
Proof.
  assert (V : forallb (fun x => isinstance x [int_; float_]) (map VInt zs) = true).
  { induction zs as [| z zs IH]; [reflexivity | exact IH]. }
  unfold sort_list. rewrite V. cbn [negb]. unfold sorted, stable_sort. split.
  - destruct (stable_sort_ints zs []) as (r & Hr & Sr & P); [constructor |].
    change (Return (map VInt [])) with (Return (@nil value)) in Hr.
    rewrite Hr. cbn [bind]. exists r. rewrite app_nil_r in P. repeat split; assumption.
  - rewrite <- map_rev.
    destruct (stable_sort_ints (rev zs) []) as (r & Hr & Sr & P); [constructor |].
    change (Return (map VInt [])) with (Return (@nil value)) in Hr.
    rewrite Hr. cbn [bind]. rewrite <- map_rev. exists (rev r).
    rewrite app_nil_r in P. split; [reflexivity |]. split.
    + apply strongly_sorted_rev. exact Sr.
    + apply perm_trans with (rev zs); [apply Permutation_rev |].
      apply perm_trans with r; [exact P | apply Permutation_rev].
Qed.

End ListOperations.

(* ================================================================== *)
(** * Decimal literals and [int()] *)
(* ================================================================== *)

Module Literals.
Import Py Flask Spec.
Local Open Scope string_scope.

Lemma lstrip_no_space (s : string) : no_space s -> lstrip s = s.
Proof.
  destruct s as [| c r]; [reflexivity |].
  intros H. apply Forall_inv in H. cbn [lstrip]. rewrite H. reflexivity.
Qed.

Lemma strip_no_space (s : string) : no_space s -> strip s = s.
Proof.
  intros H. unfold strip. rewrite (lstrip_no_space s H).
  rewrite lstrip_no_space.
  - unfold string_rev.
    rewrite list_ascii_of_string_of_list_ascii, rev_involutive.
    apply string_of_list_ascii_of_string.
  - unfold no_space, string_rev. rewrite list_ascii_of_string_of_list_ascii.
    apply Forall_rev. exact H.
Qed.

Lemma uint_no_space (d : Decimal.uint) : no_space (NilEmpty.string_of_uint d).
Proof.
  unfold no_space. induction d; cbn; constructor; (reflexivity || assumption).
Qed.

Lemma uint_all_digits (d : Decimal.uint) : all_digits (NilEmpty.string_of_uint d) = true.
Proof.
  induction d; cbn [NilEmpty.string_of_uint all_digits]; try reflexivity;
    rewrite IHd; reflexivity.
Qed.

Lemma decimal_uint_acc (d : Decimal.uint) (a : positive) :
  decimal (NilEmpty.string_of_uint d) (Zpos a) true = Some (Zpos (Pos.of_uint_acc d a)).
Proof.
  revert a.
  induction d as [| d IH | d IH | d IH | d IH | d IH | d IH | d IH | d IH | d IH | d IH];
    intros a; cbn [NilEmpty.string_of_uint Pos.of_uint_acc]; [reflexivity | ..].
  - change (decimal (NilEmpty.string_of_uint d) (10 * Zpos a + 0) true = Some (Zpos (Pos.of_uint_acc d (10 * a)))).
    rewrite <- IH. f_equal; lia.
  - change (decimal (NilEmpty.string_of_uint d) (10 * Zpos a + 1) true = Some (Zpos (Pos.of_uint_acc d (1 + 10 * a)))).
    rewrite <- IH. f_equal; lia.
  - change (decimal (NilEmpty.string_of_uint d) (10 * Zpos a + 2) true = Some (Zpos (Pos.of_uint_acc d (2 + 10 * a)))).
    rewrite <- IH. f_equal; lia.
  - change (decimal (NilEmpty.string_of_uint d) (10 * Zpos a + 3) true = Some (Zpos (Pos.of_uint_acc d (3 + 10 * a)))).
    rewrite <- IH. f_equal; lia.
  - change (decimal (NilEmpty.string_of_uint d) (10 * Zpos a + 4) true = Some (Zpos (Pos.of_uint_acc d (4 + 10 * a)))).
    rewrite <- IH. f_equal; lia.
  - change (decimal (NilEmpty.string_of_uint d) (10 * Zpos a + 5) true = Some (Zpos (Pos.of_uint_acc d (5 + 10 * a)))).
    rewrite <- IH. f_equal; lia.
  - change (decimal (NilEmpty.string_of_uint d) (10 * Zpos a + 6) true = Some (Zpos (Pos.of_uint_acc d (6 + 10 * a)))).
    rewrite <- IH. f_equal; lia.
  - change (decimal (NilEmpty.string_of_uint d) (10 * Zpos a + 7) true = Some (Zpos (Pos.of_uint_acc d (7 + 10 * a)))).
    rewrite <- IH. f_equal; lia.
  - change (decimal (NilEmpty.string_of_uint d) (10 * Zpos a + 8) true = Some (Zpos (Pos.of_uint_acc d (8 + 10 * a)))).
    rewrite <- IH. f_equal; lia.
  - change (decimal (NilEmpty.string_of_uint d) (10 * Zpos a + 9) true = Some (Zpos (Pos.of_uint_acc d (9 + 10 * a)))).
    rewrite <- IH. f_equal; lia.
Qed.

Lemma decimal_uint (d : Decimal.uint) (after_digit : bool) :
  d <> Decimal.Nil \/ after_digit = true ->
  decimal (NilEmpty.string_of_uint d) 0 after_digit = Some (Z.of_N (Pos.of_uint d)).
Proof.
  revert after_digit.
  induction d as [| d IH | d IH | d IH | d IH | d IH | d IH | d IH | d IH | d IH | d IH];
    intros after_digit H; cbn [NilEmpty.string_of_uint Pos.of_uint].
  - destruct H as [H | ->]; [contradiction H; reflexivity | reflexivity].
  - change (decimal (NilEmpty.string_of_uint d) 0 true = Some (Z.of_N (Pos.of_uint d))).
    apply IH. right. reflexivity.
  - exact (decimal_uint_acc d 1).
  - exact (decimal_uint_acc d 2).
  - exact (decimal_uint_acc d 3).
  - exact (decimal_uint_acc d 4).
  - exact (decimal_uint_acc d 5).
  - exact (decimal_uint_acc d 6).
  - exact (decimal_uint_acc d 7).
  - exact (decimal_uint_acc d 8).
  - exact (decimal_uint_acc d 9).
Qed.

Lemma decimal_of_positive (p : positive) :
  decimal (NilEmpty.string_of_uint (Pos.to_uint p)) 0 false = Some (Zpos p).
Proof.
  rewrite decimal_uint by (left; apply Unsigned.to_uint_nonnil).
  rewrite DecimalPos.Unsigned.of_to. reflexivity.
Qed.

Lemma literal_of_positive (p : positive) :
  literal (Zpos p) = NilEmpty.string_of_uint (Pos.to_uint p).
Proof.
  unfold literal. cbn [Z.to_int NilZero.string_of_int].
  pose proof (Unsigned.to_uint_nonnil p) as H.
  destruct (Pos.to_uint p); [contradiction H; reflexivity | reflexivity ..].
Qed.

Lemma literal_of_negative (p : positive) :
  literal (Zneg p) = String "-" (NilEmpty.string_of_uint (Pos.to_uint p)).
Proof.
  change (literal (Zneg p)) with (String "-" (literal (Zpos p))).
  rewrite literal_of_positive. reflexivity.
Qed.

(** [int(str(n)) == n] *)
Lemma int_of_literal (n : Z) : int_of_str (literal n) = Return n.
Proof.
  destruct n as [| p | p].
  - reflexivity.
  - unfold int_of_str. rewrite literal_of_positive.
    rewrite strip_no_space by apply uint_no_space.
    pose proof (decimal_of_positive p) as D.
    pose proof (Unsigned.to_uint_nonnil p) as N.
    destruct (Pos.to_uint p); [contradiction N; reflexivity | ..];
      cbn [NilEmpty.string_of_uint] in *; rewrite D; reflexivity.
  - unfold int_of_str. rewrite literal_of_negative.
    rewrite strip_no_space
      by (constructor; [reflexivity | apply uint_no_space]).
    rewrite decimal_of_positive. reflexivity.
Qed.

(** The [int] converter of a rule takes the literal of an integer that is
    not negative, and gives the integer. *)
Lemma int_converter_of_literal (n : Z) :
  0 <= n -> int_converter (literal n) = Some (VInt n).
Proof.
  intros Hn. unfold int_converter. rewrite int_of_literal.
  destruct n as [| p | p]; [reflexivity | | lia].
  rewrite literal_of_positive, uint_all_digits.
  pose proof (Unsigned.to_uint_nonnil p) as N.
  destruct (Pos.to_uint p); [contradiction N |..]; reflexivity.
Qed.

Lemma literal_has_no_slash (n : Z) : split "/" (literal n) = [literal n].
Proof.
  assert (U : forall d, split "/" (NilEmpty.string_of_uint d) = [NilEmpty.string_of_uint d]).
  { induction d; cbn [NilEmpty.string_of_uint]; [reflexivity | ..];
      cbn [split]; rewrite IHd; reflexivity. }
  destruct n as [| p | p].
  - reflexivity.
  - rewrite literal_of_positive. apply U.
  - rewrite literal_of_negative. cbn [split]. rewrite U. reflexivity.
Qed.

End Literals.

(* ================================================================== *)
(** * Properties of the views *)
(* ================================================================== *)

Module Endpoints.
Import Py Flask Spec Literals OperationLayer.
Local Open Scope string_scope.

Lemma int_of_str_raises (s : string) (e : exn) :
  int_of_str s = Raise e -> exists msg, e = ValueError msg.
Proof.
  unfold int_of_str. intros H.
  repeat match type of H with
         | context [match ?x with _ => _ end] => destruct x
         end; inversion H; eexists; reflexivity.
Qed.











End Endpoints.

(* ================================================================== *)
(** * Properties of the route table *)
(* ================================================================== *)

Module Routing.
Import Py Flask Spec Literals OperationLayer Endpoints.
Local Open Scope string_scope.

Lemma split_prefix_parity (seg : string) :
  split "/" ("/api/parity/" ++ seg) = "" :: "api" :: "parity" :: split "/" seg.
Proof. reflexivity. Qed.

Lemma split_prefix_odd_even (seg : string) :
  split "/" ("/api/odd_even/" ++ seg) = "" :: "api" :: "odd_even" :: split "/" seg.
Proof. reflexivity. Qed.



Lemma split_cases (sep : ascii) (s : string) :
  exists first others, split sep s = first :: others /\ (others = [] -> first = s).
Proof.
  induction s as [| c s (first & others & E & H)].
  - exists "", []. split; [reflexivity | reflexivity].
  - cbn [split]. destruct (Ascii.eqb c sep).
    + exists "", (split sep s). split; [reflexivity |].
      rewrite E. discriminate.
    + rewrite E. exists (String c first), others. split; [reflexivity |].
      intros O. rewrite (H O). reflexivity.
Qed.

Lemma int_converter_rejects (seg : string) :
  all_digits seg = false \/ seg = "" -> int_converter seg = None.
Proof.
  unfold int_converter. intros [H | ->]; [| reflexivity].
  rewrite H, andb_false_r. reflexivity.
Qed.



(** X26. [POST], [PUT], [PATCH] and [DELETE] on a route declared for
    [GET] only, and [PUT], [PATCH] and [DELETE] on [/api/echo], get the
    response of the 405 handler; no view runs. *)
Theorem other_methods_are_not_allowed (clock : string) (request : request) :
  In (req_path request)
     ["/"; "/api/health"; "/api/info"; "/api/add"; "/api/subtract"; "/api/multiply";
      "/api/divide"; "/api/square"; "/api/abs"] /\
  In (req_method request) [POST; PUT; PATCH; DELETE]
  \/ req_path request = "/api/echo" /\ In (req_method request) [PUT; PATCH; DELETE] ->
  Main.dispatch_request clock request = ([], Main.method_not_allowed clock).
Proof.
  destruct request as [m p args payload]. cbn [req_path req_method In].
  intros [[Hp Hm] | [Hp Hm]];
    repeat match goal with
           | H : _ \/ _ |- _ => destruct H
           | H : False |- _ => contradiction H
           end; subst; reflexivity.
Qed.

Lemma other_methods_are_not_allowed_witness :
  Main.dispatch_request "now"
    {| req_method := DELETE; req_path := "/api/health"; req_args := [];
       req_payload := Rejected 415 |}
  = ([], Main.method_not_allowed "now").
Proof.
  apply (other_methods_are_not_allowed "now").
  left. cbn. split; [right; left; reflexivity | do 3 right; left; reflexivity].
Defined.

(** X27. The echo view returns the message unchanged and calls nothing:
    for a method other than [POST] the query parameter [message], for a
    [POST] with a JSON object its field [message]; a missing message is the
    empty string. *)
Theorem echo_returns_the_message (clock : string) (request : request) :
  let answer message : view response :=
    ([], Return (Json (JObj [("operation", JStr "echo"); ("message", message);
                             ("timestamp", JStr clock)]) 200)) in
  (req_method request <> POST ->
   Main.echo clock request
   = answer match args_get (req_args request) "message" with
            | Some m => JStr m
            | None => JStr ""
            end) /\
  (forall fields,
     req_method request = POST -> req_payload request = Decoded (JObj fields) ->
     Main.echo clock request = answer (fields_get fields "message" (JStr ""))).
Proof.
  intros answer. unfold answer, Main.echo. split.
  - intros H. destruct (req_method request); try reflexivity. contradiction H. reflexivity.
  - intros fields -> P. unfold get_json. rewrite P. destruct fields; reflexivity.
Qed.

Lemma echo_returns_the_message_witness :
  Main.echo "now"
    {| req_method := GET; req_path := "/api/echo"; req_args := [("message", "hello")];
       req_payload := Rejected 415 |}
  = ([], Return (Json (JObj [("operation", JStr "echo"); ("message", JStr "hello");
                             ("timestamp", JStr "now")]) 200)) /\
  Main.echo "now"
    {| req_method := POST; req_path := "/api/echo"; req_args := [];
       req_payload := Decoded (JObj [("message", JInt 7)]) |}
  = ([], Return (Json (JObj [("operation", JStr "echo"); ("message", JInt 7);
                             ("timestamp", JStr "now")]) 200)).
Proof.
  split.
  - apply (echo_returns_the_message "now"
             {| req_method := GET; req_path := "/api/echo";
                req_args := [("message", "hello")]; req_payload := Rejected 415 |}).
    discriminate.
  - apply (proj2 (echo_returns_the_message "now"
                    {| req_method := POST; req_path := "/api/echo"; req_args := [];
                       req_payload := Decoded (JObj [("message", JInt 7)]) |})
                 [("message", JInt 7)]); reflexivity.
Defined.

End Routing.

(* ================================================================== *)
(** * The shape of every response *)
(* ================================================================== *)

Module Envelope.
Import Py Flask Spec Literals OperationLayer Endpoints.
Local Open Scope string_scope.

Ltac has_key_tac :=
  unfold has_key; cbn [map fst In];
  first [ solve [repeat first [left; reflexivity | right]]
        | solve [intros H; repeat destruct H as [H | H]; try discriminate H; exact H] ].

Ltac ok200 := eexists; split; [reflexivity | left; split; [reflexivity | split; has_key_tac]].
Ltac ok400 := eexists; split; [reflexivity | right; left; split; [reflexivity | has_key_tac]].
Ltac ok500 :=
  eexists; split;
  [reflexivity
  | right; right; split;
    [cbn; tauto | split; [has_key_tac | split; [has_key_tac | reflexivity]]]].

Lemma two_parameter_view_envelope (clock : string) (request : request) :
  envelope request (served clock (Main.add clock request)) /\
  envelope request (served clock (Main.subtract clock request)) /\
  envelope request (served clock (Main.multiply clock request)).
Proof.
  unfold Main.add, Main.subtract, Main.multiply.
  destruct (args_get (req_args request) "a") as [sa |];
    destruct (args_get (req_args request) "b") as [sb |];
    try (repeat split; ok400).
  destruct (int_of_str sa) as [a | e] eqn:Pa.
  - destruct (int_of_str sb) as [b | e] eqn:Pb.
    + repeat split; ok200.
    + destruct (int_of_str_raises sb e Pb) as [msg ->]. repeat split; ok400.
  - destruct (int_of_str_raises sa e Pa) as [msg ->]. repeat split; ok400.
Qed.

Lemma one_parameter_view_envelope (clock : string) (request : request) :
  envelope request (served clock (Main.square_endpoint clock request)) /\
  envelope request (served clock (Main.absolute_endpoint clock request)).
Proof.
  unfold Main.square_endpoint, Main.absolute_endpoint.
  destruct (args_get (req_args request) "n") as [sn |]; [| split; ok400].
  destruct (int_of_str sn) as [n | e] eqn:Pn.
  - split; ok200.
  - destruct (int_of_str_raises sn e Pn) as [msg ->]. split; ok400.
Qed.

Lemma divide_view_envelope (clock : string) (request : request) :
  envelope request (served clock (Main.divide clock request)).
Proof.
  unfold Main.divide.
  destruct (args_get (req_args request) "a") as [sa |];
    destruct (args_get (req_args request) "b") as [sb |];
    try ok400.
  destruct (int_of_str sa) as [a | e] eqn:Pa.
  - destruct (int_of_str sb) as [b | e] eqn:Pb.
    + cbn [lift vbind invoke].
      rewrite divide_numbers_validated, eq_zero_int by reflexivity.
      destruct (b =? 0)%Z eqn:Hz; [ok400 |].
      change (truediv (VInt a) (VInt b)) with (int_true_divide a b).
      unfold int_true_divide. rewrite Hz.
      destruct (SFdiv prec emax (exact_of_int a) (exact_of_int b)); first [ok200 | ok500].
    + destruct (int_of_str_raises sb e Pb) as [msg ->]. ok400.
  - destruct (int_of_str_raises sa e Pa) as [msg ->]. ok400.
Qed.

Lemma parity_view_envelope (clock : string) (request : request) (n : value) :
  envelope request (served clock (Main.parity_endpoint clock n)) /\
  envelope request (served clock (Main.odd_even_endpoint clock n)).
Proof.
  unfold Main.parity_endpoint, Main.odd_even_endpoint.
  destruct n as [| x | z | f | s]; try (split; ok400).
  rewrite is_even_of_int, is_odd_of_int. split; ok200.
Qed.

Lemma handle_http_exception (clock : string) (code : Z) :
  Main.handle_exception clock (HTTPException code)
  = if (code =? 404)%Z then Main.not_found clock
    else if (code =? 405)%Z then Main.method_not_allowed clock
    else if (code =? 500)%Z then Main.internal_server_error clock
    else DefaultPage code.
Proof.
  destruct code as [| p | p]; try reflexivity.
  do 10 (destruct p as [p | p |]; try reflexivity).
Qed.

Lemma echo_view_envelope (clock : string) (request : request) :
  envelope request (served clock (Main.echo clock request)).
Proof.
  unfold Main.echo.
  destruct (req_method request) eqn:M; try ok200.
  cbn [method_eqb]. unfold get_json.
  destruct (req_payload request) as [j | code] eqn:P.
  - destruct j as [| b | z | f | s | items | fields]; cbn [lift vbind json_truth].
    + ok200.
    + destruct b; first [ok200 | ok500].
    + destruct (z =? 0)%Z; first [ok200 | ok500].
    + destruct (float_is_zero f); first [ok200 | ok500].
    + destruct (String.eqb s ""); first [ok200 | ok500].
    + destruct items; first [ok200 | ok500].
    + destruct fields; ok200.
  - cbn [lift vbind served]. rewrite handle_http_exception.
    destruct (code =? 404)%Z; [ok500 |].
    destruct (code =? 405)%Z; [ok500 |].
    destruct (code =? 500)%Z; [ok500 |].
    cbn [envelope]. split; [exact M | exact P].
Qed.

Lemma matching_sound (routes : list Main.route) (path : string)
    (r : Main.route) (kwargs : list (string * value)) :
  In (r, kwargs) (Main.matching routes path) -> In r routes.
Proof.
  induction routes as [| r0 routes IH]; cbn [Main.matching]; [intros [] |].
  destruct (match_rule (Main.rule r0) path).
  - intros [E | H]; [inversion E; left; reflexivity | right; apply IH, H].
  - intros H. right. apply IH, H.
Qed.

Lemma endpoint_envelope (clock : string) (request : request) (r : Main.route)
    (kwargs : list (string * value)) :
  In r (Main.url_map clock) ->
  envelope request (served clock (Main.endpoint r request kwargs)).
Proof.
  unfold Main.url_map. cbn [In].
  intros H.
  repeat match type of H with
         | _ \/ _ => destruct H as [<- | H]
         | False => contradiction H
         end; cbn [Main.endpoint].
  - ok200.
  - ok200.
  - ok200.
  - apply two_parameter_view_envelope.
  - apply two_parameter_view_envelope.
  - apply two_parameter_view_envelope.
  - apply divide_view_envelope.
  - apply one_parameter_view_envelope.
  - apply one_parameter_view_envelope.
  - apply parity_view_envelope.
  - apply parity_view_envelope.
  - apply echo_view_envelope.
Qed.




End Envelope.
